(** * openfisca-nl: variables of the Dutch tax and benefit model

  A verification development for the formulas of
  [openfisca_nl/variables/{income,benefits,taxes,self_employment,stats}.py]
  and for the evaluation engine they run on (period model, marginal
  bracket scale, variable registry with memoising dependency evaluator).

  Number model: the source computes on numpy float arrays.  Amounts are
  modelled as exact rationals [Q]; equalities between amounts are stated
  with [Qeq] ([==]).  Rounding, infinities and NaN are outside the model. *)

From Stdlib Require Import QArith Qminmax Lqa ZArith Lia.
From stdpp Require Import gmap strings list fin_maps.

Local Open Scope Z_scope.

(** ** Errors of the engine (spec section 7) *)

Inductive Error : Type :=
| UnknownVariable
| DuplicateVariable
| PeriodMismatch
| CyclicDependency
| InvalidScale
| InvalidPeriod
| UnknownSymbol
| OutOfFuel.

Inductive Result (A : Type) : Type :=
| Ok (x : A)
| Err (e : Error).
Arguments Ok {A} x.
Arguments Err {A} e.

Definition rbind {A B : Type} (r : Result A) (k : A -> Result B) : Result B :=
match r with
| Ok x => k x
| Err e => Err e
end.

(** ** Period model *)

Module Period.

Inductive DateUnit : Type := MONTH | YEAR.

#[global] Instance DateUnit_eq_dec : EqDecision DateUnit.
Proof. solve_decision. Defined.

(** Modelled from the spec: [openfisca_core.periods] is not part of the
    sources.  A period is a granularity and a start (year, month). *)
Record t : Type := mk { unit : DateUnit; year : Z; month : Z }.

#[global] Instance t_eq_dec : EqDecision t.
Proof. solve_decision. Defined.

#[global] Instance t_countable : Countable t.
Proof.
  refine (inj_countable'
            (fun p => (match unit p with MONTH => false | YEAR => true end,
                       year p, month p))
            (fun '(b, y, m) => mk (if b then YEAR else MONTH) y m) _).
  intros [[] y m]; reflexivity.
Defined.

(** Modelled from the spec: the invariant of section 3.  A Year period
    is normalised to start in January; a Month period starts at a month
    in 1..12. *)
Definition valid (p : t) : bool :=
  match unit p with
  | YEAR => month p =? 1
  | MONTH => (1 <=? month p) && (month p <=? 12)
  end.

(** Modelled from the spec: [month(year, m)], failing with
    [InvalidPeriod] when the month is outside 1..12. *)
Definition make_month (y m : Z) : Result t :=
  if (1 <=? m) && (m <=? 12) then Ok (mk MONTH y m) else Err InvalidPeriod.

(** Modelled from the spec: [year(y)]. *)
Definition make_year (y : Z) : t := mk YEAR y 1.

(** Modelled from the spec: [first_month(p)], for a Year period the
    Month period at (year, 1).  On any period it is the month the period
    starts with. *)
Definition first_month (p : t) : t := mk MONTH (year p) (month p).

(** Modelled from the spec: [this_year(p)], for a Month period the
    enclosing Year period. *)
Definition this_year (p : t) : t := mk YEAR (year p) 1.

(** Modelled from the spec: [months_of(p)], the 12 constituent Month
    periods of a Year period in calendar order. *)
Definition months_of (p : t) : list t :=
  map (fun k => mk MONTH (year p) (Z.of_nat k)) (seq 1 12).

(** Calendar position of a Month period, counted in months. *)
Definition ordinal (p : t) : Z := 12 * year p + month p.

End Period.

Abbreviation Period := Period.t.
Abbreviation MONTH := Period.MONTH.
Abbreviation YEAR := Period.YEAR.

(** ** Arrays with numpy broadcasting *)

(** A numpy value is a 0-d scalar or a 1-d vector.  Elementwise
    operations broadcast a scalar against a vector.  On two vectors of
    different lengths numpy raises; here the result stops with the shorter
    one, so an element of a result exists exactly where every operand has
    one.  The properties below are stated element by element. *)
Inductive Array (A : Type) : Type :=
| Scalar (x : A)
| Vector (xs : list A).
Arguments Scalar {A} x.
Arguments Vector {A} xs.

Declare Scope array_scope.
Delimit Scope array_scope with A.
Bind Scope array_scope with Array.

Module Arr.

(** [a[i]], with a scalar read as the same element at every index. *)
Definition item {A : Type} (a : Array A) (i : nat) : option A :=
  match a with
  | Scalar x => Some x
  | Vector xs => xs !! i
  end.

Definition map {A B : Type} (f : A -> B) (a : Array A) : Array B :=
  match a with
  | Scalar x => Scalar (f x)
  | Vector xs => Vector (f <$> xs)
  end.

Definition ap {A B : Type} (f : Array (A -> B)) (a : Array A) : Array B :=
  match f, a with
  | Scalar g, Scalar x => Scalar (g x)
  | Scalar g, Vector xs => Vector (g <$> xs)
  | Vector gs, Scalar x => Vector ((fun g => g x) <$> gs)
  | Vector gs, Vector xs => Vector (zip_with (fun g x => g x) gs xs)
  end.

Definition lift2 {A B C : Type} (f : A -> B -> C)
    (a : Array A) (b : Array B) : Array C :=
  ap (map f a) b.

Definition lift3 {A B C D : Type} (f : A -> B -> C -> D)
    (a : Array A) (b : Array B) (c : Array C) : Array D :=
  ap (ap (map f a) b) c.

(** Modelled from the spec (section 4.4, result vectors are index-aligned
    with the population): a scalar is repeated for every entity. *)
Definition align {A : Type} (n : nat) (a : Array A) : Array A :=
  match a with
  | Scalar x => Vector (replicate n x)
  | Vector xs => Vector xs
  end.

Definition Qgeb (x y : Q) : bool := Qle_bool y x.

(** numpy's elementwise operations used by the formulas *)
Definition add : Array Q -> Array Q -> Array Q := lift2 Qplus.
Definition sub : Array Q -> Array Q -> Array Q := lift2 Qminus.
Definition mul : Array Q -> Array Q -> Array Q := lift2 Qmult.
Definition div : Array Q -> Array Q -> Array Q := lift2 Qdiv.
Definition ge : Array Q -> Array Q -> Array bool := lift2 Qgeb.
Definition max_ : Array Q -> Array Q -> Array Q := lift2 Qmax.
Definition min_ : Array Q -> Array Q -> Array Q := lift2 Qmin.
Definition where_ {A : Type} : Array bool -> Array A -> Array A -> Array A :=
  lift3 (fun (c : bool) (x y : A) => if c then x else y).
(** [+] on two boolean arrays is the logical or *)
Definition bool_add : Array bool -> Array bool -> Array bool := lift2 orb.
(** a boolean used in arithmetic counts as 1 or 0 *)
Definition of_bool (a : Array bool) : Array Q :=
  map (fun b : bool => if b then 1%Q else 0%Q) a.

End Arr.

Infix "+" := Arr.add : array_scope.
Infix "-" := Arr.sub : array_scope.
Infix "*" := Arr.mul : array_scope.
Infix "/" := Arr.div : array_scope.
Infix ">=" := Arr.ge : array_scope.

Definition scalar (q : Q) : Array Q := Scalar q.
Coercion scalar : Q >-> Array.

(** ** Marginal bracket scale *)

Module TaxScale.

(** Modelled from the spec: the scale class of [openfisca_core.taxscales]
    is not part of the sources.  A scale is the ordered list of
    (threshold, marginal rate) pairs. *)
Definition t : Type := list (Q * Q).

Definition thresholds (s : t) : list Q := fst <$> s.
Definition rates (s : t) : list Q := snd <$> s.

Definition Qltb (x y : Q) : bool := negb (Qle_bool y x).

Fixpoint strictly_increasing (ts : list Q) : bool :=
  match ts with
  | [] => true
  | t1 :: rest =>
      match rest with
      | [] => true
      | t2 :: _ => Qltb t1 t2 && strictly_increasing rest
      end
  end.

(** Modelled from the spec: a scale is well formed when its first
    threshold is 0 and its thresholds are strictly increasing. *)
Definition valid (s : t) : bool :=
  match thresholds s with
  | [] => false
  | t0 :: _ => Qeq_bool t0 0 && strictly_increasing (thresholds s)
  end.

(** [min(v, threshold[i+1] or +infinity)] *)
Definition upper (v : Q) (rest : t) : Q :=
  match rest with
  | [] => v
  | (t', _) :: _ => Qmin v t'
  end.

(** Modelled from the spec (section 4.2): the tax on one value is the sum,
    over the brackets whose threshold is below the value, of
    [rate[i] * (min(v, threshold[i+1] or +infinity) - threshold[i])]. *)
Fixpoint tax (s : t) (v : Q) : Q :=
  match s with
  | [] => 0
  | (th, r) :: rest =>
      (if Qltb th v then r * (upper v rest - th) else 0) + tax rest v
  end.

(** Modelled from the spec: [calc(scale, values)], elementwise, failing with
    [InvalidScale] on a malformed scale. *)
Definition calc (s : t) (values : Array Q) : Result (Array Q) :=
  if valid s then Ok (Arr.map (tax s) values) else Err InvalidScale.

End TaxScale.

(** ** Values held by variables *)

(** The array a variable holds for one period: floats, booleans, or the
    symbols of an enumerated type together with its closed set. *)
Inductive Value : Type :=
| VFloat (a : Array Q)
| VBool (a : Array bool)
| VEnum (possible_values : list string) (a : Array string).

Module Enum.

Fixpoint index (E : list string) (s : string) : nat :=
  match E with
  | [] => 0
  | x :: rest => if String.eqb x s then 0 else S (index rest s)
  end.

(** [array.possible_values]: the enumerated type of an enum array. *)
Definition possible_values (v : Value) : list string :=
  match v with
  | VEnum E _ => E
  | _ => []
  end.

(** Modelled from the spec (section 4.3): naming a symbol of an enumerated
    type fails with [UnknownSymbol] outside its closed set. *)
Definition symbol (E : list string) (s : string) : Result string :=
  if decide (s ∈ E) then Ok s else Err UnknownSymbol.

(** Modelled from the spec (section 4.3): [array == symbol], elementwise. *)
Definition eq (v : Value) (s : string) : Array bool :=
  match v with
  | VEnum _ a => Arr.map (fun x => String.eqb x s) a
  | VFloat a => Arr.map (fun _ => false) a
  | VBool a => Arr.map (fun _ => false) a
  end.

End Enum.

(** A value read as numbers, as numpy does in arithmetic: a boolean counts
    as 1 or 0, an enum item as its position in the enumerated type. *)
Definition as_float (v : Value) : Array Q :=
  match v with
  | VFloat a => a
  | VBool a => Arr.of_bool a
  | VEnum E a => Arr.map (fun s => inject_Z (Z.of_nat (Enum.index E s))) a
  end.
Coercion as_float : Value >-> Array.

Definition bool_as_float (a : Array bool) : Array Q := Arr.of_bool a.

(** ** Parameters (external collaborator) *)

(** The parameter tree the formulas read, by dotted path.  The values live
    in the repository's parameter files, which are not part of the sources:
    they are taken as a parameter [Period -> Parameters.t]. *)
Module Parameters.

Record TaxCredits : Type := {
  algemene_heffingskorting_max : Q;
  algemene_heffingskorting_income_threshold : Q;
  algemene_heffingskorting_phase_out_rate : Q;
  arbeidskorting_max : Q;
  arbeidskorting_max_income : Q;
  arbeidskorting_buildup_rate : Q;
  arbeidskorting_phase_out_rate : Q
}.

Record HousingTax : Type := { rate : Q; minimal_amount : Q }.

Record Taxes : Type := {
  tax_credits : TaxCredits;
  income_tax_brackets : TaxScale.t;
  income_tax_brackets_aow : TaxScale.t;
  social_security_contribution : TaxScale.t;
  housing_tax : HousingTax
}.

Record General : Type := { age_of_retirement : Q }.

Record SelfEmployment : Type := {
  zelfstandigenaftrek : Q;
  mkb_winstvrijstelling_rate : Q
}.

Record t : Type := {
  taxes : Taxes;
  general : General;
  self_employment : SelfEmployment
}.

End Parameters.

(** ** Entities and populations *)

Inductive Entity : Type := Person | Household.

(** A population snapshot: the number of persons and of households, and
    for each person (by index) the index of its household. *)
Record Population : Type := {
  persons : nat;
  households : nat;
  household_of : list nat
}.

Definition count (pop : Population) (e : Entity) : nat :=
  match e with
  | Person => persons pop
  | Household => households pop
  end.

Definition Qsum (xs : list Q) : Q := foldr Qplus 0%Q xs.

(** The persons of household [h], in membership order. *)
Definition members_of (pop : Population) (h : nat) : list nat :=
  filter (fun i => household_of pop !! i = Some h) (seq 0 (persons pop)).

(** The sum of the values of the member persons of household [h]. *)
Definition household_total (pop : Population) (a : Array Q) (h : nat) : Q :=
  Qsum (omap (Arr.item a) (members_of pop h)).

(** Modelled from the spec (section 4.5): [household.sum(array)], for each
    household the sum of the values of its member persons. *)
Definition sum (household : Population) (a : Array Q) : Array Q :=
  Vector (household_total household a <$> seq 0 (households household)).

(** ** Formulas *)

Inductive PeriodOption : Type := DIVIDE.

#[global] Instance PeriodOption_eq_dec : EqDecision PeriodOption.
Proof. solve_decision. Defined.

(** A formula is a program that requests values of other variables from
    the engine, may fail, and returns an array.  The accessor protocol is
    that of the engine, which is not part of the sources. *)
Inductive Formula : Type :=
| Return (v : Value)
| Calculate (name : string) (period : Period) (options : list PeriodOption)
    (k : Value -> Formula)
| Raise (e : Error).

(** [entity(name, period)] *)
Definition call (entity : Population) (name : string) (period : Period)
    (k : Value -> Formula) : Formula :=
  Calculate name period [] k.
Coercion call : Population >-> Funclass.

(** [entity(name, period, options)] *)
Definition call_with (entity : Population) (name : string) (period : Period)
    (options : list PeriodOption) (k : Value -> Formula) : Formula :=
  Calculate name period options k.

(** [household.members(name, period)] *)
Definition members (household : Population) (name : string) (period : Period)
    (k : Value -> Formula) : Formula :=
  Calculate name period [] k.

(** a step that may fail *)
Definition try {A : Type} (r : Result A) (k : A -> Formula) : Formula :=
  match r with
  | Ok x => k x
  | Err e => Raise e
  end.

Notation "'let*' x ':=' c 'in' k" := (c (fun x => k))
  (at level 10, x name, c at level 100, k at level 200, only parsing).

Definition return_ (a : Array Q) : Formula := Return (VFloat a).

(** ** Variable definitions *)

Inductive ValueType : Type :=
| float
| bool_
| enum (possible_values : list string) (default : string).

Inductive SetInput : Type := set_input_divide_by_period.

Record VariableDef : Type := {
  value_type : ValueType;
  entity : Entity;
  definition_period : Period.DateUnit;
  set_input : option SetInput;
  formula : option (Population -> Period -> (Period -> Parameters.t) -> Formula)
}.

Local Open Scope Q_scope.
Local Open Scope string_scope.

(** ** openfisca_nl/variables/income.py *)

Module income.

Definition salary : VariableDef := {|
  value_type := float;
  entity := Person;
  definition_period := MONTH;
  set_input := Some set_input_divide_by_period;
  formula := None
|}.

Definition capital_returns : VariableDef := {|
  value_type := float;
  entity := Person;
  definition_period := MONTH;
  set_input := Some set_input_divide_by_period;
  formula := None
|}.

Definition disposable_income : VariableDef := {|
  value_type := float;
  entity := Household;
  definition_period := MONTH;
  set_input := None;
  formula := Some (fun (household : Population) period _parameters =>
    let* salary_i := members household "salary" period in
    let salary := sum household salary_i in
    let* se_income_i :=
      members household "self_employment_taxable_income" period in
    let se_income := sum household se_income_i in
    let* capital_returns_i := members household "capital_returns" period in
    let capital_returns := sum household capital_returns_i in
    let* pension_i := members household "pension" period in
    let pension := sum household pension_i in
    let* income_tax_i := members household "income_tax" period in
    let income_tax := sum household income_tax_i in
    let* housing_tax := call_with household "housing_tax" period [DIVIDE] in
    let* social_security_contribution_i :=
      members household "social_security_contribution" period in
    let social_security_contribution :=
      sum household social_security_contribution_i in
    return_ (salary
             + se_income
             + capital_returns
             + pension
             - income_tax
             - housing_tax
             - social_security_contribution)%A)
|}.

Definition omzet : VariableDef := {|
  value_type := float;
  entity := Person;
  definition_period := MONTH;
  set_input := None;
  formula := None
|}.

Definition kosten : VariableDef := {|
  value_type := float;
  entity := Person;
  definition_period := MONTH;
  set_input := None;
  formula := None
|}.

Definition winst_voor_aftrek : VariableDef := {|
  value_type := float;
  entity := Person;
  definition_period := MONTH;
  set_input := None;
  formula := Some (fun (person : Population) period _parameters =>
    let* omzet := person "omzet" period in
    let* kosten := person "kosten" period in
    return_ (omzet - kosten)%A)
|}.

End income.

(** ** openfisca_nl/variables/benefits.py *)

Module benefits.

Definition pension : VariableDef := {|
  value_type := float;
  entity := Person;
  definition_period := MONTH;
  set_input := None;
  formula := Some (fun (person : Population) period _parameters =>
    return_ (scalar 0))
|}.

Definition household_income : VariableDef := {|
  value_type := float;
  entity := Household;
  definition_period := MONTH;
  set_input := None;
  formula := Some (fun (household : Population) period _parameters =>
    let* salaries := members household "salary" period in
    return_ (sum household salaries))
|}.

End benefits.

(** ** openfisca_nl/variables/self_employment.py *)

Module self_employment.

Definition urencriterium_voldaan : VariableDef := {|
  value_type := bool_;
  entity := Person;
  definition_period := YEAR;
  set_input := None;
  formula := None
|}.

Definition zelfstandigenaftrek : VariableDef := {|
  value_type := float;
  entity := Person;
  definition_period := MONTH;
  set_input := None;
  formula := Some (fun (person : Population) period parameters =>
    let year := Period.this_year period in
    let* hours_criterion_met := person "urencriterium_voldaan" year in
    let annual_deduction :=
      (parameters period).(Parameters.self_employment)
                         .(Parameters.zelfstandigenaftrek) in
    let monthly_deduction := annual_deduction / 12 in
    return_ (hours_criterion_met * monthly_deduction)%A)
|}.

Definition mkb_winstvrijstelling : VariableDef := {|
  value_type := float;
  entity := Person;
  definition_period := MONTH;
  set_input := None;
  formula := Some (fun (person : Population) period parameters =>
    let* profit_before := person "winst_voor_aftrek" period in
    let* aftrek := person "zelfstandigenaftrek" period in
    let profit_after_deductions := Arr.max_ (profit_before - aftrek) 0 in
    let rate :=
      (parameters period).(Parameters.self_employment)
                         .(Parameters.mkb_winstvrijstelling_rate) in
    return_ (profit_after_deductions * rate)%A)
|}.

Definition self_employment_taxable_income : VariableDef := {|
  value_type := float;
  entity := Person;
  definition_period := MONTH;
  set_input := None;
  formula := Some (fun (person : Population) period _parameters =>
    let* winst := person "winst_voor_aftrek" period in
    let* zelfstandigenaftrek := person "zelfstandigenaftrek" period in
    let* mkb := person "mkb_winstvrijstelling" period in
    let taxable := (winst - zelfstandigenaftrek - mkb)%A in
    return_ (Arr.max_ taxable 0))
|}.

End self_employment.

(** ** openfisca_nl/variables/taxes.py *)

Module taxes.

Definition arbeidsinkomen : VariableDef := {|
  value_type := float;
  entity := Person;
  definition_period := MONTH;
  set_input := None;
  formula := Some (fun (person : Population) period _parameters =>
    let* salary := person "salary" period in
    let* se_income := person "self_employment_taxable_income" period in
    return_ (salary + se_income)%A)
|}.

Definition algemene_heffingskorting : VariableDef := {|
  value_type := float;
  entity := Person;
  definition_period := MONTH;
  set_input := None;
  formula := Some (fun (person : Population) period parameters =>
    let params :=
      (parameters period).(Parameters.taxes).(Parameters.tax_credits) in
    let* monthly_taxable_income := person "taxable_income" period in
    let annual_taxable_income := (monthly_taxable_income * 12)%A in
    let max_credit := params.(Parameters.algemene_heffingskorting_max) in
    let threshold :=
      params.(Parameters.algemene_heffingskorting_income_threshold) in
    let phase_out_rate :=
      params.(Parameters.algemene_heffingskorting_phase_out_rate) in
    let excess_income := Arr.max_ (annual_taxable_income - threshold) 0 in
    let reduction := (excess_income * phase_out_rate)%A in
    let annual_credit := Arr.max_ (max_credit - reduction) 0 in
    return_ (annual_credit / 12)%A)
|}.

Definition arbeidskorting : VariableDef := {|
  value_type := float;
  entity := Person;
  definition_period := MONTH;
  set_input := None;
  formula := Some (fun (person : Population) period parameters =>
    let params :=
      (parameters period).(Parameters.taxes).(Parameters.tax_credits) in
    let* monthly_arbeidsinkomen := person "arbeidsinkomen" period in
    let annual_labor_income := (monthly_arbeidsinkomen * 12)%A in
    let max_credit := params.(Parameters.arbeidskorting_max) in
    let max_income := params.(Parameters.arbeidskorting_max_income) in
    let buildup_rate := params.(Parameters.arbeidskorting_buildup_rate) in
    let phase_out_rate := params.(Parameters.arbeidskorting_phase_out_rate) in
    let buildup_credit := (annual_labor_income * buildup_rate)%A in
    let excess_income := Arr.max_ (annual_labor_income - max_income) 0 in
    let phase_out_reduction := (excess_income * phase_out_rate)%A in
    let annual_credit :=
      Arr.max_ 0 (Arr.min_ buildup_credit max_credit - phase_out_reduction) in
    return_ (annual_credit / 12)%A)
|}.

Definition taxable_income : VariableDef := {|
  value_type := float;
  entity := Person;
  definition_period := MONTH;
  set_input := None;
  formula := Some (fun (person : Population) period _parameters =>
    let* salary := person "salary" period in
    let* capital_returns := person "capital_returns" period in
    let* pension := person "pension" period in
    let base_income := (salary + capital_returns + pension)%A in
    let* se_income := person "self_employment_taxable_income" period in
    return_ (base_income + se_income)%A)
|}.

Definition income_tax : VariableDef := {|
  value_type := float;
  entity := Person;
  definition_period := MONTH;
  set_input := None;
  formula := Some (fun (person : Population) period parameters =>
    let* taxable_income := person "taxable_income" period in
    let* age := person "age" period in
    let aow_age :=
      (parameters period).(Parameters.general)
                         .(Parameters.age_of_retirement) in
    let is_aow_age := (age >= aow_age)%A in
    let scale :=
      (parameters period).(Parameters.taxes)
                         .(Parameters.income_tax_brackets_aow) in
    let scale_regular :=
      (parameters period).(Parameters.taxes)
                         .(Parameters.income_tax_brackets) in
    let* gross_tax_aow := try (TaxScale.calc scale taxable_income) in
    let* gross_tax_regular :=
      try (TaxScale.calc scale_regular taxable_income) in
    let gross_tax := Arr.where_ is_aow_age gross_tax_aow gross_tax_regular in
    let* algemene_heffingskorting :=
      person "algemene_heffingskorting" period in
    let* arbeidskorting := person "arbeidskorting" period in
    return_
      (Arr.max_ (gross_tax - algemene_heffingskorting - arbeidskorting) 0))
|}.

Definition social_security_contribution : VariableDef := {|
  value_type := float;
  entity := Person;
  definition_period := MONTH;
  set_input := None;
  formula := Some (fun (person : Population) period parameters =>
    let* salary := person "salary" period in
    let scale :=
      (parameters period).(Parameters.taxes)
                         .(Parameters.social_security_contribution) in
    let* tax := try (TaxScale.calc scale salary) in
    return_ tax)
|}.

Definition housing_tax : VariableDef := {|
  value_type := float;
  entity := Household;
  definition_period := YEAR;
  set_input := None;
  formula := Some (fun (household : Population) period parameters =>
    let january := Period.first_month period in
    let* accommodation_size := household "accommodation_size" january in
    let tax_params :=
      (parameters period).(Parameters.taxes).(Parameters.housing_tax) in
    let tax_amount :=
      Arr.max_ (accommodation_size * tax_params.(Parameters.rate))
               tax_params.(Parameters.minimal_amount) in
    let* occupancy_status :=
      household "housing_occupancy_status" january in
    let HousingOccupancyStatus := Enum.possible_values occupancy_status in
    let* tenant_symbol := try (Enum.symbol HousingOccupancyStatus "tenant") in
    let tenant := Enum.eq occupancy_status tenant_symbol in
    let* owner_symbol := try (Enum.symbol HousingOccupancyStatus "owner") in
    let owner := Enum.eq occupancy_status owner_symbol in
    return_ (bool_as_float (Arr.bool_add owner tenant) * tax_amount)%A)
|}.

End taxes.

(** ** openfisca_nl/variables/stats.py *)

Module stats.

Definition total_taxes : VariableDef := {|
  value_type := float;
  entity := Household;
  definition_period := MONTH;
  set_input := None;
  formula := Some (fun (household : Population) period _parameters =>
    let* income_tax_i := members household "income_tax" period in
    let* social_security_contribution_i :=
      members household "social_security_contribution" period in
    let* housing_tax := household "housing_tax" (Period.this_year period) in
    return_ (sum household income_tax_i
             + sum household social_security_contribution_i
             + housing_tax / 12)%A)
|}.

End stats.

(** The variables the five modules define, by name. *)
Definition variables : list (string * VariableDef) := [
  ("salary", income.salary);
  ("capital_returns", income.capital_returns);
  ("disposable_income", income.disposable_income);
  ("omzet", income.omzet);
  ("kosten", income.kosten);
  ("winst_voor_aftrek", income.winst_voor_aftrek);
  ("pension", benefits.pension);
  ("household_income", benefits.household_income);
  ("urencriterium_voldaan", self_employment.urencriterium_voldaan);
  ("zelfstandigenaftrek", self_employment.zelfstandigenaftrek);
  ("mkb_winstvrijstelling", self_employment.mkb_winstvrijstelling);
  ("self_employment_taxable_income",
     self_employment.self_employment_taxable_income);
  ("arbeidsinkomen", taxes.arbeidsinkomen);
  ("algemene_heffingskorting", taxes.algemene_heffingskorting);
  ("arbeidskorting", taxes.arbeidskorting);
  ("taxable_income", taxes.taxable_income);
  ("income_tax", taxes.income_tax);
  ("social_security_contribution", taxes.social_security_contribution);
  ("housing_tax", taxes.housing_tax);
  ("total_taxes", stats.total_taxes)
].

(** ** The variable registry and the dependency evaluator *)

Abbreviation Key := (string * Period)%type.

(** Modelled from the spec (section 3, calculation cache): the state of
    one calculation run of the engine, which is not part of the sources.
    It holds the cache of computed arrays and the (name, period) pairs
    whose formula is being computed. *)
Record State : Type := {
  cache : gmap Key Value;
  pending : list Key
}.

Definition init : State := {| cache := ∅; pending := [] |}.

(** Modelled from the spec (section 4.4): [register(definition)], failing
    with [DuplicateVariable] when the name is already registered. *)
Definition register (name : string) (def : VariableDef)
    (registry : gmap string VariableDef) : Result (gmap string VariableDef) :=
  match registry !! name with
  | Some _ => Err DuplicateVariable
  | None => Ok (<[name := def]> registry)
  end.

(** The registry of a tax and benefit system: the variables of the five
    modules above, and the variables [others] that the rest of the
    repository defines (housing, demographics), which are not part of the
    sources. *)
Definition tax_benefit_system (others : gmap string VariableDef)
    : gmap string VariableDef :=
  list_to_map variables ∪ others.

Definition align_value (n : nat) (v : Value) : Value :=
  match v with
  | VFloat a => VFloat (Arr.align n a)
  | VBool a => VBool (Arr.align n a)
  | VEnum E a => VEnum E (Arr.align n a)
  end.

Section Engine.

Context (registry : gmap string VariableDef).
Context (population : Population).
Context (parameters : Period -> Parameters.t).
Context (inputs : gmap Key Value).

(** Modelled from the spec: the default array of a variable, one default
    value (0.0, false, the enum default) per entity. *)
Definition default_array (var : VariableDef) : Value :=
  let n := count population (entity var) in
  match value_type var with
  | float => VFloat (Vector (replicate n 0))
  | bool_ => VBool (Vector (replicate n false))
  | enum E d => VEnum E (Vector (replicate n d))
  end.

(** Modelled from the spec (section 4.4, step 3, and section 7): the value
    of a variable without formula.  A request at a granularity other than
    the definition period of the variable fails with [PeriodMismatch].
    Otherwise the input supplied for the requested period is returned as it
    is.  Without it, for a Month variable whose year has a supplied value,
    that value is divided by 12 when the variable is marked as divisible,
    and the request fails with [PeriodMismatch] when it is not.  Without
    any supplied value the default array is returned. *)
Definition read_input (var : VariableDef) (name : string) (period : Period)
    : Result Value :=
  match definition_period var, Period.unit period with
  | MONTH, MONTH =>
      match inputs !! (name, period) with
      | Some v => Ok v
      | None =>
          match (inputs !! (name, Period.this_year period) : option Value) with
          | Some yearly =>
              match set_input var with
              | Some set_input_divide_by_period =>
                  Ok (VFloat (yearly / 12)%A)
              | None => Err PeriodMismatch
              end
          | None => Ok (default_array var)
          end
      end
  | YEAR, YEAR =>
      match inputs !! (name, period) with
      | Some v => Ok v
      | None => Ok (default_array var)
      end
  | _, _ => Err PeriodMismatch
  end.

(** Modelled from the spec (section 4.5): a request with the [DIVIDE]
    option for a Year variable at a Month period is served from the
    enclosing year, divided by 12. *)
Definition divides (name : string) (period : Period)
    (options : list PeriodOption) : bool :=
  bool_decide (DIVIDE ∈ options)
  && bool_decide (Period.unit period = MONTH)
  && bool_decide (definition_period <$> registry !! name = Some YEAR).

Definition target (name : string) (period : Period)
    (options : list PeriodOption) : Period :=
  if divides name period options then Period.this_year period else period.

Definition convert (name : string) (period : Period)
    (options : list PeriodOption) (v : Value) : Value :=
  if divides name period options then VFloat (v / 12)%A else v.

(** Modelled from the spec (section 4.4, step 4): running a formula
    against an evaluator [ev] of (name, period) pairs.  Every request is
    resolved, evaluated, converted and handed to the rest of the formula;
    an error aborts the run. *)
Fixpoint run_with (ev : string -> Period -> State -> Result (Value * State))
    (prog : Formula) (s : State) : Result (Value * State) :=
  match prog with
  | Return v => Ok (v, s)
  | Raise e => Err e
  | Calculate name period options k =>
      match ev name (target name period options) s with
      | Ok (v, s') => run_with ev (k (convert name period options v)) s'
      | Err e => Err e
      end
  end.

(** Modelled from the spec (section 4.4): [evaluate(name, period)].
    1. a cached array is returned;
    2. an unregistered name fails with [UnknownVariable], and a request at
       a granularity other than the definition period of the variable
       fails with [PeriodMismatch] (section 7);
    3. a variable without formula is read from the inputs;
    4. a formula is run with this evaluator as its accessor, the pair
       being pending meanwhile; entering a pending pair fails with
       [CyclicDependency];
    5. the result is stored in the cache.
    The inputs are read for variables without formula only (section 6).
    [fuel] bounds the depth of nested requests. *)
Fixpoint evaluate (fuel : nat) (name : string) (period : Period) (s : State)
    : Result (Value * State) :=
  match fuel with
  | O => Err OutOfFuel
  | S fuel' =>
      match cache s !! (name, period) with
      | Some v => Ok (v, s)
      | None =>
          match registry !! name with
          | None => Err UnknownVariable
          | Some var =>
              if decide (Period.unit period = definition_period var)
              then
                match formula var with
                | None =>
                    match read_input var name period with
                    | Ok v =>
                        Ok (v, {| cache := <[(name, period) := v]> (cache s);
                                  pending := pending s |})
                    | Err e => Err e
                    end
                | Some f =>
                    if decide ((name, period) ∈ pending s)
                    then Err CyclicDependency
                    else
                      match run_with (evaluate fuel')
                              (f population period parameters)
                              {| cache := cache s;
                                 pending := (name, period) :: pending s |} with
                      | Ok (v, s') =>
                          let v' :=
                            align_value (count population (entity var)) v in
                          Ok (v',
                              {| cache := <[(name, period) := v']> (cache s');
                                 pending := pending s |})
                      | Err e => Err e
                      end
                end
              else Err PeriodMismatch
          end
      end
  end.

Definition run (fuel : nat) : Formula -> State -> Result (Value * State) :=
  run_with (evaluate fuel).

(** Modelled from the spec (section 5): a calculation run, one evaluation
    from the empty cache. *)
Definition calculate (fuel : nat) (name : string) (period : Period)
    : Result Value :=
  match evaluate fuel name period init with
  | Ok (v, _) => Ok v
  | Err e => Err e
  end.

(** [name] has the value [v] for [period]: some run computes it. *)
Definition has_value (name : string) (period : Period) (v : Value) : Prop :=
  exists fuel : nat, calculate fuel name period = Ok v.

(** *** Reference semantics without cache *)

(** The value of a formula when each request is answered by [val]. *)
Fixpoint interp_with (val : string -> Period -> Result Value)
    (prog : Formula) : Result Value :=
  match prog with
  | Return v => Ok v
  | Raise e => Err e
  | Calculate name period options k =>
      match val name (target name period options) with
      | Ok v => interp_with val (k (convert name period options v))
      | Err e => Err e
      end
  end.

(** The value of a variable computed from the inputs alone, every request
    recomputed from scratch. *)
Fixpoint value_of (fuel : nat) (name : string) (period : Period)
    : Result Value :=
  match fuel with
  | O => Err OutOfFuel
  | S fuel' =>
      match registry !! name with
      | None => Err UnknownVariable
      | Some var =>
          if decide (Period.unit period = definition_period var)
          then
            match formula var with
            | None => read_input var name period
            | Some f =>
                match interp_with (value_of fuel')
                        (f population period parameters) with
                | Ok v => Ok (align_value (count population (entity var)) v)
                | Err e => Err e
                end
            end
          else Err PeriodMismatch
      end
  end.

(** *** Invariants of a run *)

(** Every cached array is the value of its (name, period) pair. *)
Definition cache_coherent (s : State) : Prop :=
  forall (name : string) (period : Period) (v : Value),
    cache s !! (name, period) = Some v ->
    exists fuel : nat, value_of fuel name period = Ok v.

(** No pending pair has a value within [fuel] nested requests. *)
Definition pending_open (fuel : nat) (s : State) : Prop :=
  forall (name : string) (period : Period),
    (name, period) ∈ pending s ->
    forall v : Value, value_of fuel name period <> Ok v.

(** *** Formulas over computed values *)

(** [prog] returns [v] when each of its requests is answered with the
    value the requested variable has. *)
Inductive yields : Formula -> Value -> Prop :=
| yields_return (v : Value) : yields (Return v) v
| yields_calculate (name : string) (period : Period)
    (options : list PeriodOption) (k : Value -> Formula) (x v : Value) :
    has_value name (target name period options) x ->
    yields (k (convert name period options x)) v ->
    yields (Calculate name period options k) v.

(** *** Formulas that fail *)

(** [prog] fails with [e] once each request before the failing step is
    answered with the value the requested variable has. *)
Inductive raises : Formula -> Error -> Prop :=
| raises_raise (e : Error) : raises (Raise e) e
| raises_calculate (name : string) (period : Period)
    (options : list PeriodOption) (k : Value -> Formula) (x : Value)
    (e : Error) :
    has_value name (target name period options) x ->
    raises (k (convert name period options x)) e ->
    raises (Calculate name period options k) e.

(** *** Re-entrant evaluations *)

(** [reenters fuel name period s]: the evaluation of (name, period) from
    the state [s] reaches, within [fuel] nested requests, a request for a
    pair that is pending at that moment: the pair itself, or, directly or
    through further formulas, a pair requested by its formula. *)
Inductive reenters : nat -> string -> Period -> State -> Prop :=
| reenters_pending (fuel : nat) (name : string) (period : Period)
    (s : State) (var : VariableDef)
    (f : Population -> Period -> (Period -> Parameters.t) -> Formula) :
    cache s !! (name, period) = None ->
    registry !! name = Some var ->
    Period.unit period = definition_period var ->
    formula var = Some f ->
    (name, period) ∈ pending s ->
    reenters (S fuel) name period s
| reenters_formula (fuel : nat) (name : string) (period : Period)
    (s : State) (var : VariableDef)
    (f : Population -> Period -> (Period -> Parameters.t) -> Formula) :
    cache s !! (name, period) = None ->
    registry !! name = Some var ->
    Period.unit period = definition_period var ->
    formula var = Some f ->
    (name, period) ∉ pending s ->
    reenters_in fuel (f population period parameters)
      {| cache := cache s; pending := (name, period) :: pending s |} ->
    reenters (S fuel) name period s
with reenters_in : nat -> Formula -> State -> Prop :=
| reenters_request (fuel : nat) (name : string) (period : Period)
    (options : list PeriodOption) (k : Value -> Formula) (s : State) :
    reenters fuel name (target name period options) s ->
    reenters_in fuel (Calculate name period options k) s
| reenters_later (fuel : nat) (name : string) (period : Period)
    (options : list PeriodOption) (k : Value -> Formula) (s s' : State)
    (v : Value) :
    evaluate fuel name (target name period options) s = Ok (v, s') ->
    reenters_in fuel (k (convert name period options v)) s' ->
    reenters_in fuel (Calculate name period options k) s.

End Engine.

(** ** Sample data *)

(** Concrete registries, populations, parameters and inputs on which the
    properties below are exercised. *)
Module Sample.

Definition march : Period := Period.mk MONTH 2024 3.
Definition year_2024 : Period := Period.make_year 2024.

(** one household with two persons *)
Definition couple : Population :=
  {| persons := 2; households := 1; household_of := [0%nat; 0%nat] |}.

Definition params : Parameters.t := {|
  Parameters.taxes := {|
    Parameters.tax_credits := {|
      Parameters.algemene_heffingskorting_max := 3000;
      Parameters.algemene_heffingskorting_income_threshold := 24000;
      Parameters.algemene_heffingskorting_phase_out_rate := 6 # 100;
      Parameters.arbeidskorting_max := 5000;
      Parameters.arbeidskorting_max_income := 40000;
      Parameters.arbeidskorting_buildup_rate := 1 # 10;
      Parameters.arbeidskorting_phase_out_rate := 6 # 100
    |};
    Parameters.income_tax_brackets := [(0, 1 # 10); (2000, 3 # 10)];
    Parameters.income_tax_brackets_aow := [(0, 5 # 100); (2000, 3 # 10)];
    Parameters.social_security_contribution := [(0, 2 # 100)];
    Parameters.housing_tax :=
      {| Parameters.rate := 10; Parameters.minimal_amount := 200 |}
  |};
  Parameters.general := {| Parameters.age_of_retirement := 67 |};
  Parameters.self_employment := {|
    Parameters.zelfstandigenaftrek := 3750;
    Parameters.mkb_winstvrijstelling_rate := 14 # 100
  |}
|}.

Definition parameters (_ : Period) : Parameters.t := params.

Definition input_variable (t : ValueType) (e : Entity)
    (p : Period.DateUnit) : VariableDef :=
  {| value_type := t; entity := e; definition_period := p;
     set_input := None; formula := None |}.

Definition HousingOccupancyStatus : list string :=
  ["owner"; "tenant"; "free_lodger"; "homeless"].

(** the variables of the housing and demographics modules, as inputs *)
Definition others : gmap string VariableDef :=
  list_to_map [
    ("age", input_variable float Person MONTH);
    ("accommodation_size", input_variable float Household MONTH);
    ("housing_occupancy_status",
       input_variable (enum HousingOccupancyStatus "tenant") Household MONTH)
  ].

Definition registry : gmap string VariableDef := tax_benefit_system others.

(** values supplied for the year only *)
Definition yearly_inputs : gmap Key Value :=
  list_to_map [
    (("salary", year_2024), VFloat (Vector [12000; 0]));
    (("omzet", year_2024), VFloat (Vector [12000; 0]))
  ].

(** values supplied for one month *)
Definition inputs : gmap Key Value :=
  list_to_map [
    (("salary", march), VFloat (Vector [3000; 1000]));
    (("age", march), VFloat (Vector [40; 70]));
    (("capital_returns", march), VFloat (Vector [0; -100]))
  ].

(** a loss on capital and no other income *)
Definition loss_inputs : gmap Key Value :=
  list_to_map [(("capital_returns", march), VFloat (Vector [-100; 0]))].

(** the dwelling of the household, observed in January *)
Definition housing_inputs : gmap Key Value :=
  list_to_map [
    (("accommodation_size", Period.mk MONTH 2024 1), VFloat (Vector [0]));
    (("housing_occupancy_status", Period.mk MONTH 2024 1),
       VEnum HousingOccupancyStatus (Vector ["owner"]))
  ] ∪ inputs.

(** two variables whose formulas request each other *)
Definition ping : VariableDef := {|
  value_type := float;
  entity := Person;
  definition_period := MONTH;
  set_input := None;
  formula := Some (fun (person : Population) period _parameters =>
    let* x := person "pong" period in
    return_ (x + 1)%A)
|}.

Definition pong : VariableDef := {|
  value_type := float;
  entity := Person;
  definition_period := MONTH;
  set_input := None;
  formula := Some (fun (person : Population) period _parameters =>
    let* salary := person "salary" period in
    let* x := person "ping" period in
    return_ (salary + x)%A)
|}.

Definition cyclic_registry : gmap string VariableDef :=
  list_to_map [("ping", ping); ("pong", pong); ("salary", income.salary)].

(** a freelancer who meets the hours criterion, and a partner with
    expenses only *)
Definition freelance_inputs : gmap Key Value :=
  list_to_map [
    (("omzet", march), VFloat (Vector [5000; 0]));
    (("kosten", march), VFloat (Vector [1000; 200]));
    (("urencriterium_voldaan", year_2024), VBool (Vector [true; false]));
    (("salary", march), VFloat (Vector [0; 1000]));
    (("age", march), VFloat (Vector [40; 70]))
  ].

(** parameters whose contribution scale does not start at 0 and whose AOW
    scale repeats a threshold *)
Definition broken_parameters (_ : Period) : Parameters.t := {|
  Parameters.taxes := {|
    Parameters.tax_credits :=
      params.(Parameters.taxes).(Parameters.tax_credits);
    Parameters.income_tax_brackets := [(0, 1 # 10); (2000, 3 # 10)];
    Parameters.income_tax_brackets_aow := [(0, 5 # 100); (0, 3 # 10)];
    Parameters.social_security_contribution := [(100, 2 # 100)];
    Parameters.housing_tax :=
      params.(Parameters.taxes).(Parameters.housing_tax)
  |};
  Parameters.general := params.(Parameters.general);
  Parameters.self_employment := params.(Parameters.self_employment)
|}.

End Sample.

(** The value a calculation run on the sample data computes. *)
Ltac sample_value inputs name period H :=
  let r := eval vm_compute in
    (calculate Sample.registry Sample.couple Sample.parameters inputs
       10 name period) in
  match r with
  | Ok ?v =>
      assert (has_value Sample.registry Sample.couple Sample.parameters
                inputs name period v) as H
        by (exists 10%nat; vm_compute; reflexivity)
  end.

(** Case analysis on every [Qmax] and [Qmin] of the goal, each replaced by
    a fresh amount with its defining inequalities. *)
Ltac minmax_cases :=
  repeat match goal with
  | |- context [Qmax ?x ?y] =>
      let m := fresh "m" in
      let Hm := fresh "Hm" in
      let Hc := fresh "Hc" in
      destruct (Q.max_spec x y) as [[Hc Hm]|[Hc Hm]];
      revert Hc Hm; generalize (Qmax x y); intros m
  | |- context [Qmin ?x ?y] =>
      let m := fresh "m" in
      let Hm := fresh "Hm" in
      let Hc := fresh "Hc" in
      destruct (Q.min_spec x y) as [[Hc Hm]|[Hc Hm]];
      revert Hc Hm; generalize (Qmin x y); intros m
  end;
  intros.

(** Inequalities between amounts built from [Qmax], [Qmin] and a division
    by 12. *)
Ltac amounts :=
  unfold Qdiv; change (/ 12) with (1 # 12); minmax_cases; try lra; try nra.

(** * Properties *)

(** ** Period model *)

Section PeriodFacts.

Local Open Scope Z_scope.

Lemma months_of_lookup (p : Period) (k : nat) :
  (k < 12)%nat ->
  Period.months_of p !! k
  = Some (Period.mk MONTH (Period.year p) (Z.of_nat k + 1)).
Proof.
  intros Hk. unfold Period.months_of.
  rewrite list_lookup_fmap, lookup_seq_lt by lia. simpl.
  do 2 f_equal. lia.
Qed.

Lemma months_of_elem (p m : Period) :
  m ∈ Period.months_of p ->
  Period.unit m = MONTH /\ Period.year m = Period.year p
  /\ 1 <= Period.month m <= 12.
Proof.
  unfold Period.months_of. intros Hm.
  apply list_elem_of_fmap in Hm as (k & -> & Hk).
  apply elem_of_seq in Hk. simpl.
  split; [reflexivity|]. split; [reflexivity|]. lia.
Qed.

Lemma this_year_months_of (p m : Period) :
  Period.unit p = YEAR -> Period.valid p = true ->
  m ∈ Period.months_of p -> Period.this_year m = p.
Proof.
  intros Hu Hv Hm. apply months_of_elem in Hm as (_ & Hy & _).
  destruct p as [u y mo]. unfold Period.valid in Hv. simpl in *. subst u.
  apply Z.eqb_eq in Hv. subst mo. unfold Period.this_year. by rewrite Hy.
Qed.

(** C8.  For every Year period [p], [months_of p] has exactly 12 elements,
    they are the months 1..12 of the year of [p] in calendar order (each a
    valid Month period one month after its predecessor), and
    [this_year (first_month p) = p], [first_month p] being the January of
    that year and [this_year] of each of the twelve months being [p]. *)
Theorem year_months_roundtrip (p : Period) :
  Period.unit p = YEAR -> Period.valid p = true ->
  length (Period.months_of p) = 12%nat
  /\ (forall k : nat, (k < 12)%nat ->
        Period.months_of p !! k
        = Some (Period.mk MONTH (Period.year p) (Z.of_nat k + 1)))
  /\ (forall (k : nat) (m m' : Period),
        Period.months_of p !! k = Some m ->
        Period.months_of p !! S k = Some m' ->
        Period.ordinal m' = Period.ordinal m + 1)
  /\ (forall m : Period, m ∈ Period.months_of p ->
        Period.unit m = MONTH /\ Period.valid m = true
        /\ Period.this_year m = p)
  /\ Period.first_month p = Period.mk MONTH (Period.year p) 1
  /\ Period.this_year (Period.first_month p) = p.
Proof.
  intros Hu Hv. split; [reflexivity|]. split; [apply months_of_lookup|].
  split; [|split; [|split]].
  - intros k m m' Hm Hm'.
    assert (S k < 12)%nat as Hk.
    { apply lookup_lt_Some in Hm'. exact Hm'. }
    rewrite months_of_lookup in Hm, Hm' by lia.
    injection Hm as <-. injection Hm' as <-.
    unfold Period.ordinal. simpl. lia.
  - intros m Hm. pose proof (this_year_months_of p m Hu Hv Hm) as Hy.
    apply months_of_elem in Hm as (Hum & _ & Hlo & Hhi).
    repeat split; [exact Hum| |exact Hy].
    unfold Period.valid. rewrite Hum.
    apply andb_true_iff. split; apply Z.leb_le; assumption.
  - destruct p as [u y mo]. unfold Period.valid in Hv. simpl in *. subst u.
    apply Z.eqb_eq in Hv. by subst mo.
  - destruct p as [u y mo]. unfold Period.valid in Hv. simpl in *. subst u.
    apply Z.eqb_eq in Hv. by subst mo.
Qed.

Lemma year_months_roundtrip_2024 :
  length (Period.months_of (Period.make_year 2024)) = 12%nat
  /\ Period.this_year (Period.first_month (Period.make_year 2024))
     = Period.make_year 2024.
Proof.
  destruct (year_months_roundtrip (Period.make_year 2024) eq_refl eq_refl)
    as (Hlen & _ & _ & _ & _ & Hrt).
  split; [exact Hlen | exact Hrt].
Defined.

End PeriodFacts.

(** ** Marginal bracket scale *)

Section TaxScaleFacts.

Local Open Scope Q_scope.

Lemma Qltb_true (x y : Q) : TaxScale.Qltb x y = true <-> x < y.
Proof.
  unfold TaxScale.Qltb. rewrite negb_true_iff.
  destruct (Qle_bool y x) eqn:E.
  - apply Qle_bool_iff in E. split; [discriminate | lra].
  - split; [|reflexivity]. intros _.
    destruct (Qlt_le_dec x y) as [H|H]; [exact H|].
    apply Qle_bool_iff in H. congruence.
Qed.

Lemma Qltb_false (x y : Q) : TaxScale.Qltb x y = false <-> y <= x.
Proof.
  destruct (TaxScale.Qltb x y) eqn:E.
  - apply Qltb_true in E. split; [discriminate | lra].
  - split; [|reflexivity]. intros _.
    destruct (Qlt_le_dec x y) as [H|H]; [|exact H].
    apply Qltb_true in H. congruence.
Qed.

Lemma strictly_increasing_tail (t0 : Q) (ts : list Q) :
  TaxScale.strictly_increasing (t0 :: ts) = true ->
  TaxScale.strictly_increasing ts = true.
Proof.
  simpl. destruct ts as [|t1 ts]; [reflexivity|].
  intros H. apply andb_true_iff in H. apply H.
Qed.

Lemma strictly_increasing_lower (t0 : Q) (ts : list Q) :
  TaxScale.strictly_increasing (t0 :: ts) = true ->
  Forall (fun th => t0 < th) ts.
Proof.
  revert t0. induction ts as [|t1 ts IH]; intros t0 H; [constructor|].
  simpl in H. apply andb_true_iff in H as [H01 H1].
  apply Qltb_true in H01. constructor; [exact H01|].
  specialize (IH t1 H1). eapply Forall_impl; [exact IH|].
  simpl. intros th Hth. lra.
Qed.

(** No bracket starts below [v]: the tax is zero. *)
Lemma tax_below (s : TaxScale.t) (v : Q) :
  Forall (fun th => v <= th) (TaxScale.thresholds s) ->
  TaxScale.tax s v == 0.
Proof.
  induction s as [|[th r] rest IH]; intros H; simpl; [reflexivity|].
  inversion H as [|? ? Hth Hrest]; subst.
  apply Qltb_false in Hth. rewrite Hth, (IH Hrest). lra.
Qed.

Lemma upper_mono (rest : TaxScale.t) (v1 v2 : Q) :
  v1 <= v2 -> TaxScale.upper v1 rest <= TaxScale.upper v2 rest.
Proof.
  intros H. destruct rest as [|[t' r'] rest]; simpl; [exact H|].
  apply Q.min_le_compat_r. exact H.
Qed.

Lemma upper_above (rest : TaxScale.t) (th v : Q) :
  th < v -> Forall (fun t' => th < t') (TaxScale.thresholds rest) ->
  th <= TaxScale.upper v rest.
Proof.
  intros Hv Hrest. destruct rest as [|[t' r'] rest]; simpl; [lra|].
  inversion Hrest; subst. apply Q.min_glb; lra.
Qed.

Lemma tax_mono (s : TaxScale.t) (v1 v2 : Q) :
  TaxScale.strictly_increasing (TaxScale.thresholds s) = true ->
  Forall (fun r => 0 <= r) (TaxScale.rates s) ->
  v1 <= v2 -> TaxScale.tax s v1 <= TaxScale.tax s v2.
Proof.
  intros Hinc Hrates Hv.
  induction s as [|[th r] rest IH]; simpl; [lra|].
  inversion Hrates as [|? ? Hr Hrest]; subst.
  pose proof (strictly_increasing_lower _ _ Hinc) as Hlow.
  specialize (IH (strictly_increasing_tail _ _ Hinc) Hrest).
  apply Qplus_le_compat; [|exact IH].
  destruct (TaxScale.Qltb th v1) eqn:E1; destruct (TaxScale.Qltb th v2) eqn:E2.
  - pose proof (upper_mono rest v1 v2 Hv). nra.
  - apply Qltb_true in E1. apply Qltb_false in E2. lra.
  - apply Qltb_true in E2.
    pose proof (upper_above rest th v2 E2 Hlow). nra.
  - lra.
Qed.

Lemma valid_thresholds (s : TaxScale.t) :
  TaxScale.valid s = true ->
  TaxScale.strictly_increasing (TaxScale.thresholds s) = true
  /\ Forall (fun th => 0 <= th) (TaxScale.thresholds s).
Proof.
  unfold TaxScale.valid. destruct (TaxScale.thresholds s) as [|t0 ts] eqn:E;
    [discriminate|].
  intros H. apply andb_true_iff in H as [H0 Hinc].
  apply Qeq_bool_iff in H0. split; [exact Hinc|].
  constructor; [lra|].
  eapply Forall_impl; [apply (strictly_increasing_lower _ _ Hinc)|].
  simpl. intros th Hth. lra.
Qed.

Lemma tax_nonpositive (s : TaxScale.t) (v : Q) :
  TaxScale.valid s = true -> v <= 0 -> TaxScale.tax s v == 0.
Proof.
  intros Hs Hv. apply tax_below.
  eapply Forall_impl; [apply (valid_thresholds s Hs)|].
  simpl. intros th Hth. lra.
Qed.

Lemma calc_valid (s : TaxScale.t) (values : Array Q) :
  TaxScale.valid s = true ->
  TaxScale.calc s values = Ok (Arr.map (TaxScale.tax s) values).
Proof. intros H. unfold TaxScale.calc. by rewrite H. Qed.

(** C2, as amended.  For every bracket scale [scale] with strictly increasing
    thresholds starting at 0, [calc scale] succeeds and is the elementwise
    application of the tax of section 4.2; that tax is 0 at 0 and at every
    [v <= 0]; and when in addition no marginal rate of [scale] is negative it
    is non-decreasing: [v1 <= v2] gives [tax scale v1 <= tax scale v2]. *)
Theorem calc_zero_and_monotone (scale : TaxScale.t) :
  TaxScale.valid scale = true ->
  (forall values : Array Q,
      TaxScale.calc scale values = Ok (Arr.map (TaxScale.tax scale) values))
  /\ TaxScale.tax scale 0 == 0
  /\ (forall v : Q, v <= 0 -> TaxScale.tax scale v == 0)
  /\ (Forall (fun r => 0 <= r) (TaxScale.rates scale) ->
      forall v1 v2 : Q,
        v1 <= v2 -> TaxScale.tax scale v1 <= TaxScale.tax scale v2).
Proof.
  intros Hs. split; [intros; by apply calc_valid|].
  split; [apply tax_nonpositive; [exact Hs | lra]|].
  split; [intros v; by apply tax_nonpositive|].
  intros Hr v1 v2 Hv. apply tax_mono; [|exact Hr|exact Hv].
  apply (valid_thresholds scale Hs).
Qed.

Lemma calc_zero_and_monotone_two_brackets :
  TaxScale.calc [(0, 1 # 10); (2000, 3 # 10)] (Vector [3000])
  = Ok (Arr.map (TaxScale.tax [(0, 1 # 10); (2000, 3 # 10)]) (Vector [3000]))
  /\ TaxScale.tax [(0, 1 # 10); (2000, 3 # 10)] 0 == 0.
Proof.
  destruct (calc_zero_and_monotone [(0, 1 # 10); (2000, 3 # 10)] eq_refl)
    as (Hcalc & H0 & _).
  split; [apply Hcalc | exact H0].
Defined.

(** C2 as stated fails: a scale with strictly increasing thresholds
    starting at 0 may carry a negative marginal rate, and its tax then
    decreases: on [(0, -1/10)] the tax is 0 at 0 and -1/10 at 1. *)
Lemma calc_negative_rate_decreases :
  ~ (forall scale : TaxScale.t, TaxScale.valid scale = true ->
       (forall v1 v2 : Q, v1 <= v2 -> 0 <= v2 ->
          TaxScale.tax scale v1 <= TaxScale.tax scale v2)
       /\ TaxScale.tax scale 0 == 0
       /\ (forall v : Q, v <= 0 -> TaxScale.tax scale v == 0)).
Proof.
  intros H.
  destruct (H [(0, - (1 # 10))] eq_refl) as [Hmono _].
  assert (0 <= 1) as H01 by lra.
  specialize (Hmono 0 1 H01 H01).
  vm_compute in Hmono. apply Hmono. reflexivity.
Qed.

End TaxScaleFacts.

(** ** Arrays *)

Section ArrayFacts.

Context {A B C D : Type}.

Lemma item_map (f : A -> B) (a : Array A) (i : nat) :
  Arr.item (Arr.map f a) i = f <$> Arr.item a i.
Proof. destruct a; simpl; [reflexivity | apply list_lookup_fmap]. Qed.

Lemma item_ap (f : Array (A -> B)) (a : Array A) (i : nat) :
  Arr.item (Arr.ap f a) i
  = match Arr.item f i, Arr.item a i with
    | Some g, Some x => Some (g x)
    | _, _ => None
    end.
Proof.
  destruct f as [g|gs], a as [x|xs]; simpl.
  - reflexivity.
  - rewrite list_lookup_fmap. by destruct (xs !! i).
  - rewrite list_lookup_fmap. by destruct (gs !! i).
  - rewrite lookup_zip_with. by destruct (gs !! i), (xs !! i).
Qed.

Lemma item_align (n : nat) (a : Array A) (i : nat) (x : A) :
  Arr.item (Arr.align n a) i = Some x -> Arr.item a i = Some x.
Proof.
  destruct a as [y|ys]; simpl; [|done].
  intros H. apply lookup_replicate in H as [-> _]. reflexivity.
Qed.

Lemma item_align_lt (n : nat) (a : Array A) (i : nat) :
  (i < n)%nat -> Arr.item (Arr.align n a) i = Arr.item a i.
Proof.
  intros Hi. destruct a as [y|ys]; simpl; [|done].
  by apply lookup_replicate_2.
Qed.

End ArrayFacts.

Lemma item_lift2 {A B C : Type} (f : A -> B -> C)
    (a : Array A) (b : Array B) (i : nat) :
  Arr.item (Arr.lift2 f a b) i
  = match Arr.item a i, Arr.item b i with
    | Some x, Some y => Some (f x y)
    | _, _ => None
    end.
Proof.
  unfold Arr.lift2. rewrite item_ap, item_map.
  by destruct (Arr.item a i), (Arr.item b i).
Qed.

Lemma item_lift3 {A B C D : Type} (f : A -> B -> C -> D)
    (a : Array A) (b : Array B) (c : Array C) (i : nat) :
  Arr.item (Arr.lift3 f a b c) i
  = match Arr.item a i, Arr.item b i, Arr.item c i with
    | Some x, Some y, Some z => Some (f x y z)
    | _, _, _ => None
    end.
Proof.
  unfold Arr.lift3. rewrite !item_ap, item_map.
  by destruct (Arr.item a i), (Arr.item b i), (Arr.item c i).
Qed.

Lemma item_scalar (q : Q) (i : nat) : Arr.item (scalar q) i = Some q.
Proof. reflexivity. Qed.

Lemma item_sum (pop : Population) (a : Array Q) (h : nat) :
  (h < households pop)%nat ->
  Arr.item (sum pop a) h = Some (household_total pop a h).
Proof.
  intros Hh. unfold sum. simpl.
  rewrite list_lookup_fmap, lookup_seq_lt by exact Hh. reflexivity.
Qed.

(** ** The evaluator *)

Section EngineFacts.

Context (registry : gmap string VariableDef).
Context (population : Population).
Context (parameters : Period -> Parameters.t).
Context (inputs : gmap Key Value).

Local Abbreviation value_of :=
  (value_of registry population parameters inputs).
Local Abbreviation evaluate :=
  (evaluate registry population parameters inputs).
Local Abbreviation has_value :=
  (has_value registry population parameters inputs).
Local Abbreviation yields :=
  (yields registry population parameters inputs).
Local Abbreviation cache_coherent :=
  (cache_coherent registry population parameters inputs).
Local Abbreviation pending_open :=
  (pending_open registry population parameters inputs).
Local Abbreviation target := (target registry).
Local Abbreviation convert := (convert registry).
Local Abbreviation interp_with := (interp_with registry).
Local Abbreviation run_with := (run_with registry).

(** *** The reference semantics is monotone in the fuel *)

Lemma interp_with_mono (val val' : string -> Period -> Result Value)
    (prog : Formula) (v : Value) :
  (forall name period x, val name period = Ok x -> val' name period = Ok x) ->
  interp_with val prog = Ok v -> interp_with val' prog = Ok v.
Proof.
  intros Hval. induction prog as [w|name period options k IH|e]; simpl;
    [done| |done].
  destruct (val name (target name period options)) as [x|e] eqn:E;
    [|discriminate].
  rewrite (Hval _ _ _ E). apply IH.
Qed.

Lemma value_of_mono (fuel fuel' : nat) (name : string) (period : Period)
    (v : Value) :
  (fuel <= fuel')%nat ->
  value_of fuel name period = Ok v -> value_of fuel' name period = Ok v.
Proof.
  revert fuel' name period v.
  induction fuel as [|fuel IH]; intros fuel' name period v Hle; [discriminate|].
  destruct fuel' as [|fuel']; [lia|].
  simpl.
  destruct (registry !! name) as [var|]; [|done].
  case_decide; [|done].
  destruct (formula var) as [f|]; [|done].
  destruct (interp_with _ (f population period parameters))
    as [w|e] eqn:E; [|discriminate].
  intros [= <-].
  erewrite interp_with_mono; [reflexivity| |exact E].
  intros n p x. apply IH. lia.
Qed.

Lemma value_of_inj (fuel fuel' : nat) (name : string) (period : Period)
    (v v' : Value) :
  value_of fuel name period = Ok v -> value_of fuel' name period = Ok v' ->
  v = v'.
Proof.
  intros H H'.
  apply (value_of_mono _ (Nat.max fuel fuel')) in H; [|lia].
  apply (value_of_mono _ (Nat.max fuel fuel')) in H'; [|lia].
  congruence.
Qed.

(** *** The cache returns what a fresh computation returns *)

Lemma cache_coherent_init : cache_coherent init.
Proof. intros name period v H. simpl in H. by rewrite lookup_empty in H. Qed.

Lemma cache_coherent_insert (s : State) (name : string) (period : Period)
    (v : Value) (fuel : nat) (stack : list Key) :
  cache_coherent s -> value_of fuel name period = Ok v ->
  cache_coherent {| cache := <[(name, period) := v]> (cache s);
                    pending := stack |}.
Proof.
  intros Hs Hv n p w. simpl. rewrite lookup_insert. case_decide as Hk.
  - injection Hk as <- <-. intros [= <-]. by exists fuel.
  - apply Hs.
Qed.

Lemma run_with_sound
    (ev : string -> Period -> State -> Result (Value * State))
    (prog : Formula) :
  (forall name period s v s', cache_coherent s ->
     ev name period s = Ok (v, s') ->
     cache_coherent s' /\ exists fuel, value_of fuel name period = Ok v) ->
  forall s v s', cache_coherent s -> run_with ev prog s = Ok (v, s') ->
    cache_coherent s'
    /\ exists fuel, interp_with (value_of fuel) prog = Ok v.
Proof.
  intros Hev. induction prog as [w|name period options k IH|e];
    intros s v s' Hs; simpl.
  - intros [= <- <-]. split; [exact Hs | by exists 0%nat].
  - destruct (ev name (target name period options) s) as [[x s1]|e] eqn:E;
      [|discriminate].
    intros Hrun.
    destruct (Hev _ _ _ _ _ Hs E) as [Hs1 [f1 Hx]].
    destruct (IH _ _ _ _ Hs1 Hrun) as [Hs' [f2 Hv]].
    split; [exact Hs'|]. exists (Nat.max f1 f2).
    rewrite (value_of_mono f1 (Nat.max f1 f2) _ _ x) by (lia || exact Hx).
    eapply interp_with_mono; [|exact Hv].
    intros n p y. apply value_of_mono. lia.
  - discriminate.
Qed.

Lemma evaluate_sound (fuel : nat) (name : string) (period : Period)
    (s : State) (v : Value) (s' : State) :
  cache_coherent s -> evaluate fuel name period s = Ok (v, s') ->
  cache_coherent s' /\ exists fuel', value_of fuel' name period = Ok v.
Proof.
  revert name period s v s'.
  induction fuel as [|fuel IH]; intros name period s v s' Hs; [discriminate|].
  simpl.
  destruct (cache s !! (name, period)) as [w|] eqn:Hc.
  { intros [= <- <-]. split; [exact Hs | by apply Hs]. }
  destruct (registry !! name) as [var|] eqn:Hreg; [|discriminate].
  case_decide as Hunit; [|discriminate].
  destruct (formula var) as [f|] eqn:Hf.
  - case_decide; [discriminate|].
    destruct (run_with _ (f population period parameters) _)
      as [[w s1]|e] eqn:Hrun; [|discriminate].
    intros [= <- <-].
    assert (cache_coherent
              {| cache := cache s; pending := (name, period) :: pending s |})
      as Hs0 by exact Hs.
    destruct (run_with_sound _ _ IH _ _ _ Hs0 Hrun) as [Hs1 [f1 Hw]].
    assert (value_of (S f1) name period
            = Ok (align_value (count population (entity var)) w)) as Hv.
    { simpl. by rewrite Hreg, decide_True, Hf, Hw. }
    split; [|by exists (S f1)].
    eapply cache_coherent_insert; [exact Hs1 | exact Hv].
  - destruct (read_input population inputs var name period) as [w|e] eqn:Hin;
      [|discriminate].
    intros [= <- <-].
    assert (value_of 1 name period = Ok w) as Hv.
    { simpl. by rewrite Hreg, decide_True, Hf. }
    split; [|by exists 1%nat].
    eapply cache_coherent_insert; [exact Hs | exact Hv].
Qed.

Lemma pending_open_mono (fuel fuel' : nat) (s : State) :
  (fuel <= fuel')%nat -> pending_open fuel' s -> pending_open fuel s.
Proof.
  intros Hle H name period Hin v Hv.
  apply (H name period Hin v). by apply (value_of_mono fuel).
Qed.

Lemma run_with_complete (fuel : nat)
    (ev : string -> Period -> State -> Result (Value * State))
    (prog : Formula) :
  (forall name period v s, value_of fuel name period = Ok v ->
     cache_coherent s -> pending_open fuel s ->
     exists s', ev name period s = Ok (v, s')
                /\ cache_coherent s' /\ pending s' = pending s) ->
  forall s v, interp_with (value_of fuel) prog = Ok v ->
    cache_coherent s -> pending_open fuel s ->
    exists s', run_with ev prog s = Ok (v, s')
               /\ cache_coherent s' /\ pending s' = pending s.
Proof.
  intros Hev. induction prog as [w|name period options k IH|e];
    intros s v; simpl.
  - intros [= <-] Hs Hp. by exists s.
  - destruct (value_of fuel name (target name period options)) as [x|e] eqn:E;
      [|discriminate].
    intros Hv Hs Hp.
    destruct (Hev _ _ _ _ E Hs Hp) as (s1 & -> & Hs1 & Hp1).
    destruct (IH _ s1 v Hv Hs1) as (s' & Hrun & Hs' & Hp').
    { intros n p Hin. apply Hp. by rewrite <- Hp1. }
    exists s'. rewrite Hp', Hp1. done.
  - discriminate.
Qed.

Lemma evaluate_complete (fuel : nat) :
  forall (fuel' : nat) (name : string) (period : Period) (v : Value)
         (s : State),
    (fuel <= fuel')%nat -> value_of fuel name period = Ok v ->
    cache_coherent s -> pending_open fuel s ->
    exists s', evaluate fuel' name period s = Ok (v, s')
               /\ cache_coherent s' /\ pending s' = pending s.
Proof.
  induction fuel as [|fuel IH]; intros fuel' name period v s Hle Hv Hs Hp;
    [discriminate|].
  destruct (value_of fuel name period) as [v1|e1] eqn:E1.
  { assert (v1 = v) as -> by (eapply value_of_inj; eassumption).
    apply IH; [lia|exact E1|exact Hs|].
    eapply pending_open_mono; [|exact Hp]. lia. }
  destruct fuel' as [|fuel']; [lia|].
  pose proof Hv as Hv0. simpl in Hv. simpl.
  destruct (cache s !! (name, period)) as [w|] eqn:Hc.
  { destruct (Hs _ _ _ Hc) as [f0 Hw].
    assert (w = v) as -> by (eapply value_of_inj; eassumption).
    by exists s. }
  destruct (registry !! name) as [var|] eqn:Hreg; [|discriminate].
  case_decide as Hunit; [|discriminate].
  destruct (formula var) as [f|] eqn:Hf.
  - destruct (interp_with _ (f population period parameters))
      as [w|e] eqn:Hw; [|discriminate].
    injection Hv as <-.
    case_decide as Hin; [exfalso; eapply Hp; eassumption|].
    destruct (run_with_complete fuel (evaluate fuel')
                (f population period parameters)) with
        (s := {| cache := cache s; pending := (name, period) :: pending s |})
        (v := w) as (s1 & -> & Hs1 & Hp1).
    + intros n p x s0 Hx Hs0 Hp0. apply IH; [lia|done..].
    + exact Hw.
    + exact Hs.
    + intros n p Hnp x. simpl in Hnp.
      apply elem_of_cons in Hnp as [[= -> ->]|Hnp].
      * by rewrite E1.
      * eapply pending_open_mono; [|exact Hp|exact Hnp]. lia.
    + eexists. split; [reflexivity|]. split; [|reflexivity].
      eapply cache_coherent_insert; [exact Hs1 | exact Hv0].
  - rewrite Hv. eexists. split; [reflexivity|]. split; [|reflexivity].
    eapply cache_coherent_insert; [exact Hs | exact Hv0].
Qed.

(** A run from the empty cache computes exactly the reference value. *)
Lemma has_value_iff (name : string) (period : Period) (v : Value) :
  has_value name period v <-> exists fuel, value_of fuel name period = Ok v.
Proof.
  split.
  - intros [fuel H]. unfold calculate in H.
    destruct (evaluate fuel name period init) as [[w s']|e] eqn:E;
      [|discriminate].
    injection H as ->.
    by destruct (evaluate_sound _ _ _ _ _ _ cache_coherent_init E).
  - intros [fuel H]. exists fuel. unfold calculate.
    destruct (evaluate_complete fuel fuel name period v init)
      as (s' & -> & _); [lia|exact H|apply cache_coherent_init| |done].
    intros n p Hin. simpl in Hin. by apply elem_of_nil in Hin.
Qed.

Lemma has_value_inj (name : string) (period : Period) (v v' : Value) :
  has_value name period v -> has_value name period v' -> v = v'.
Proof.
  rewrite !has_value_iff. intros [f H] [f' H'].
  eapply value_of_inj; eassumption.
Qed.

Lemma yields_interp (prog : Formula) (v : Value) :
  yields prog v -> exists fuel, interp_with (value_of fuel) prog = Ok v.
Proof.
  induction 1 as [w|name period options k x w Hx _ [f2 IH]].
  - by exists 0%nat.
  - apply has_value_iff in Hx as [f1 Hx]. exists (Nat.max f1 f2). simpl.
    rewrite (value_of_mono f1 (Nat.max f1 f2) _ _ x) by (lia || exact Hx).
    eapply interp_with_mono; [|exact IH].
    intros n p y. apply value_of_mono. lia.
Qed.

(** The value of a variable with a formula: what the formula returns on
    the values of the variables it requests, aligned with the population. *)
Lemma has_value_formula (name : string) (period : Period) (var : VariableDef)
    (f : Population -> Period -> (Period -> Parameters.t) -> Formula)
    (v : Value) :
  registry !! name = Some var ->
  Period.unit period = definition_period var ->
  formula var = Some f ->
  yields (f population period parameters) v ->
  has_value name period (align_value (count population (entity var)) v).
Proof.
  intros Hreg Hu Hf Hy. apply yields_interp in Hy as [fuel Hy].
  apply has_value_iff. exists (S fuel). simpl.
  by rewrite Hreg, decide_True, Hf, Hy.
Qed.

(** A variable has values only for periods of its definition granularity. *)
Lemma has_value_unit (name : string) (period : Period) (var : VariableDef)
    (v : Value) :
  registry !! name = Some var -> has_value name period v ->
  Period.unit period = definition_period var.
Proof.
  intros Hreg Hv. apply has_value_iff in Hv as [fuel Hv].
  destruct fuel as [|fuel]; [discriminate|]. simpl in Hv.
  rewrite Hreg in Hv. by case_decide.
Qed.

(** The value of a variable without formula. *)
Lemma has_value_input (name : string) (period : Period) (var : VariableDef)
    (v : Value) :
  registry !! name = Some var ->
  Period.unit period = definition_period var ->
  formula var = None ->
  read_input population inputs var name period = Ok v ->
  has_value name period v.
Proof.
  intros Hreg Hu Hf Hin. apply has_value_iff. exists 1%nat. simpl.
  by rewrite Hreg, decide_True, Hf.
Qed.

End EngineFacts.

(** ** Re-entrant evaluation *)

Section CycleFacts.

Context (registry : gmap string VariableDef).
Context (population : Population).
Context (parameters : Period -> Parameters.t).
Context (inputs : gmap Key Value).

Local Abbreviation evaluate :=
  (evaluate registry population parameters inputs).
Local Abbreviation reenters :=
  (reenters registry population parameters inputs).
Local Abbreviation reenters_in :=
  (reenters_in registry population parameters inputs).
Local Abbreviation target := (target registry).
Local Abbreviation convert := (convert registry).
Local Abbreviation run_with := (run_with registry).

Lemma run_with_mono
    (ev ev' : string -> Period -> State -> Result (Value * State))
    (prog : Formula) :
  (forall name period s r,
     ev name period s = Ok r -> ev' name period s = Ok r) ->
  forall s r, run_with ev prog s = Ok r -> run_with ev' prog s = Ok r.
Proof.
  intros Hev. induction prog as [w|name period options k IH|e]; intros s r;
    simpl; [done| |done].
  destruct (ev name (target name period options) s) as [[x s1]|e] eqn:E;
    [|discriminate].
  rewrite (Hev _ _ _ _ E). apply IH.
Qed.

Lemma evaluate_mono (fuel fuel' : nat) (name : string) (period : Period)
    (s : State) (r : Value * State) :
  (fuel <= fuel')%nat ->
  evaluate fuel name period s = Ok r -> evaluate fuel' name period s = Ok r.
Proof.
  revert fuel' name period s r.
  induction fuel as [|fuel IH]; intros fuel' name period s r Hle;
    [discriminate|].
  destruct fuel' as [|fuel']; [lia|]. simpl.
  destruct (cache s !! (name, period)); [done|].
  destruct (registry !! name) as [var|]; [|done].
  case_decide; [|done].
  destruct (formula var) as [f|]; [|done].
  case_decide; [done|].
  destruct (run_with (evaluate fuel) _ _) as [[w s1]|e] eqn:E; [|discriminate].
  intros [= <-].
  assert (run_with (evaluate fuel') (f population period parameters)
            {| cache := cache s; pending := (name, period) :: pending s |}
          = Ok (w, s1)) as ->; [|reflexivity].
  eapply run_with_mono; [|exact E].
  intros n p s0 r0. apply IH. lia.
Qed.

(** A re-entrant request inside a formula aborts the formula. *)
Lemma reenters_in_aborts (fuel : nat) :
  (forall name period s, reenters fuel name period s ->
     evaluate fuel name period s = Err CyclicDependency) ->
  forall prog s, reenters_in fuel prog s ->
    run_with (evaluate fuel) prog s = Err CyclicDependency.
Proof.
  intros Hev prog.
  induction prog as [w|name period options k IH|e]; intros s H;
    inversion H; subst; simpl.
  - by rewrite Hev.
  - match goal with E : evaluate _ _ _ _ = Ok _ |- _ => rewrite E end.
    by apply IH.
Qed.

Lemma reenters_aborts (fuel : nat) (name : string) (period : Period)
    (s : State) :
  reenters fuel name period s ->
  evaluate fuel name period s = Err CyclicDependency.
Proof.
  revert name period s.
  induction fuel as [|fuel IH]; intros name period s H; inversion H; subst;
    simpl.
  - match goal with
    | Hc : cache s !! _ = None, Hr : registry !! _ = Some _,
      Hf : formula _ = Some _ |- _ =>
        rewrite Hc, Hr, decide_True, Hf by assumption
    end.
    by rewrite decide_True.
  - match goal with
    | Hc : cache s !! _ = None, Hr : registry !! _ = Some _,
      Hf : formula _ = Some _ |- _ =>
        rewrite Hc, Hr, decide_True, Hf by assumption
    end.
    rewrite decide_False by assumption.
    by rewrite (reenters_in_aborts fuel IH).
Qed.

Lemma reenters_in_mono (fuel fuel' : nat) :
  (fuel <= fuel')%nat ->
  (forall name period s, reenters fuel name period s ->
     reenters fuel' name period s) ->
  forall prog s, reenters_in fuel prog s -> reenters_in fuel' prog s.
Proof.
  intros Hle Hev prog.
  induction prog as [w|name period options k IH|e]; intros s H;
    inversion H; subst.
  - apply reenters_request. by apply Hev.
  - eapply reenters_later; [|by apply IH].
    by apply (evaluate_mono fuel).
Qed.

Lemma reenters_mono (fuel fuel' : nat) (name : string) (period : Period)
    (s : State) :
  (fuel <= fuel')%nat ->
  reenters fuel name period s -> reenters fuel' name period s.
Proof.
  revert fuel' name period s.
  induction fuel as [|fuel IH]; intros fuel' name period s Hle H;
    inversion H; subst; (destruct fuel' as [|fuel']; [lia|]).
  - eapply reenters_pending; eassumption.
  - eapply reenters_formula; try eassumption.
    eapply (reenters_in_mono fuel fuel'); [lia| |eassumption].
    intros n p s0. apply IH. lia.
Qed.

(** C7.  When the evaluation of a (name, period) pair reaches, directly or
    through the formulas it runs, a request for a pair that is being
    computed, [evaluate] returns [CyclicDependency]; so does it with any
    larger bound on the depth of requests, and a calculation run that
    reaches such a request ends with that error and no value. *)
Theorem cyclic_dependency_raised (fuel : nat) (name : string)
    (period : Period) (s : State) :
  reenters fuel name period s ->
  (forall fuel' : nat, (fuel <= fuel')%nat ->
     evaluate fuel' name period s = Err CyclicDependency)
  /\ (s = init ->
      forall fuel' : nat, (fuel <= fuel')%nat ->
        calculate registry population parameters inputs fuel' name period
        = Err CyclicDependency).
Proof.
  intros H.
  assert (forall fuel', (fuel <= fuel')%nat ->
            evaluate fuel' name period s = Err CyclicDependency) as Hall.
  { intros fuel' Hle. apply reenters_aborts. by apply (reenters_mono fuel). }
  split; [exact Hall|].
  intros -> fuel' Hle. unfold calculate. by rewrite Hall.
Qed.

End CycleFacts.

Lemma cyclic_dependency_raised_ping :
  calculate Sample.cyclic_registry Sample.couple Sample.parameters ∅
    10 "ping" Sample.march
  = Err CyclicDependency.
Proof.
  apply (cyclic_dependency_raised Sample.cyclic_registry Sample.couple
           Sample.parameters ∅ 3 "ping" Sample.march init);
    [|reflexivity|lia].
  eapply reenters_formula;
    [reflexivity | reflexivity | reflexivity | reflexivity
    | apply not_elem_of_nil |].
  apply reenters_request.
  eapply reenters_formula;
    [reflexivity | reflexivity | reflexivity | reflexivity | |].
  { intros Hin. apply list_elem_of_singleton in Hin. discriminate. }
  eapply reenters_later; [vm_compute; reflexivity|].
  apply reenters_request.
  eapply reenters_pending;
    [reflexivity | reflexivity | reflexivity | reflexivity |].
  apply list_elem_of_further, list_elem_of_here.
Defined.

(** ** Variables without formula *)

Lemma registry_variable (others : gmap string VariableDef) (name : string)
    (var : VariableDef) :
  (list_to_map variables : gmap string VariableDef) !! name = Some var ->
  tax_benefit_system others !! name = Some var.
Proof. intros H. unfold tax_benefit_system. by apply lookup_union_Some_l. Qed.

Lemma default_array_items (population : Population) (var : VariableDef) :
  match value_type var with
  | float =>
      default_array population var
      = VFloat (Vector (replicate (count population (entity var)) 0))
  | bool_ =>
      default_array population var
      = VBool (Vector (replicate (count population (entity var)) false))
  | enum E d =>
      default_array population var
      = VEnum E (Vector (replicate (count population (entity var)) d))
  end.
Proof. unfold default_array. by destruct (value_type var). Qed.

(** C6, as amended.  For every variable without formula, requested for a
    period of its definition granularity for which the inputs hold no
    value, neither for the period itself nor, for a Month variable, for
    the enclosing year, [evaluate] returns the default of the value type
    (0.0 for float, false for bool, the enum default) once for every
    entity of the variable's entity kind. *)
Theorem input_default (registry : gmap string VariableDef)
    (population : Population) (parameters : Period -> Parameters.t)
    (inputs : gmap Key Value) (name : string) (var : VariableDef)
    (period : Period) (fuel : nat) :
  registry !! name = Some var -> formula var = None ->
  Period.unit period = definition_period var ->
  inputs !! (name, period) = None ->
  (definition_period var = MONTH ->
   inputs !! (name, Period.this_year period) = None) ->
  calculate registry population parameters inputs (S fuel) name period
  = Ok (default_array population var)
  /\ match value_type var with
     | float =>
         default_array population var
         = VFloat (Vector (replicate (count population (entity var)) 0))
     | bool_ =>
         default_array population var
         = VBool (Vector (replicate (count population (entity var)) false))
     | enum E d =>
         default_array population var
         = VEnum E (Vector (replicate (count population (entity var)) d))
     end.
Proof.
  intros Hreg Hf Hu Hin Hyear. split; [|apply default_array_items].
  unfold calculate. simpl.
  rewrite lookup_empty, Hreg, decide_True, Hf by exact Hu.
  unfold read_input. rewrite Hu, Hin.
  destruct (definition_period var) eqn:Hd; [|reflexivity].
  by rewrite (Hyear eq_refl).
Qed.

Lemma input_default_omzet :
  calculate Sample.registry Sample.couple Sample.parameters ∅ 1
    "omzet" Sample.march
  = Ok (VFloat (Vector [0; 0]))
  /\ calculate Sample.registry Sample.couple Sample.parameters ∅ 1
       "urencriterium_voldaan" Sample.year_2024
     = Ok (VBool (Vector [false; false])).
Proof.
  split.
  - apply (input_default Sample.registry Sample.couple Sample.parameters ∅
             "omzet" income.omzet Sample.march 0);
      reflexivity.
  - apply (input_default Sample.registry Sample.couple Sample.parameters ∅
             "urencriterium_voldaan" self_employment.urencriterium_voldaan
             Sample.year_2024 0);
      (reflexivity || discriminate).
Defined.

(** C6 as stated fails.  [salary] and [omzet] have no formula.  With 12000
    supplied for the year 2024 and nothing for March, the divisible
    [salary] is 1000 for March, not the default 0, and the request for the
    non-divisible [omzet] fails with [PeriodMismatch].  With no input at
    all, [omzet], a Month variable, requested for the year 2024 fails with
    [PeriodMismatch] too. *)
Lemma input_default_fails_with_yearly_input :
  Sample.registry !! "salary" = Some income.salary
  /\ formula income.salary = None
  /\ Sample.yearly_inputs !! ("salary", Sample.march) = None
  /\ default_array Sample.couple income.salary = VFloat (Vector [0; 0])
  /\ (exists (v : Value) (x : Q),
        calculate Sample.registry Sample.couple Sample.parameters
          Sample.yearly_inputs 1 "salary" Sample.march = Ok v
        /\ Arr.item v 0 = Some x /\ x == 1000 /\ ~ x == 0)
  /\ Sample.registry !! "omzet" = Some income.omzet
  /\ formula income.omzet = None
  /\ Sample.yearly_inputs !! ("omzet", Sample.march) = None
  /\ calculate Sample.registry Sample.couple Sample.parameters
       Sample.yearly_inputs 1 "omzet" Sample.march = Err PeriodMismatch
  /\ (∅ : gmap Key Value) !! ("omzet", Sample.year_2024) = None
  /\ calculate Sample.registry Sample.couple Sample.parameters
       ∅ 1 "omzet" Sample.year_2024 = Err PeriodMismatch.
Proof.
  repeat (split; [reflexivity|]).
  split; [|repeat (split; [reflexivity|]); reflexivity].
  eexists _, _. split; [vm_compute; reflexivity|].
  split; [reflexivity|]. split; [reflexivity|]. discriminate.
Qed.

(** ** The formulas of the tax and benefit system *)

Section FormulaFacts.

Context (others : gmap string VariableDef).
Context (population : Population).
Context (parameters : Period -> Parameters.t).
Context (inputs : gmap Key Value).

Local Abbreviation registry := (tax_benefit_system others).
Local Abbreviation has_value :=
  (has_value registry population parameters inputs).
Local Abbreviation yields :=
  (yields registry population parameters inputs).

Lemma yields_call (name : string) (period : Period) (k : Value -> Formula)
    (x v : Value) :
  has_value name period x -> yields (k x) v ->
  yields (Calculate name period [] k) v.
Proof. intros Hx Hk. by apply yields_calculate with (x := x). Qed.

Lemma yields_try {A : Type} (r : Result A) (k : A -> Formula) (x : A)
    (v : Value) :
  r = Ok x -> yields (k x) v -> yields (try r k) v.
Proof. by intros ->. Qed.

Lemma yields_divide (name : string) (period : Period) (var : VariableDef)
    (k : Value -> Formula) (x v : Value) :
  Period.unit period = MONTH ->
  registry !! name = Some var -> definition_period var = YEAR ->
  has_value name (Period.this_year period) x ->
  yields (k (VFloat (x / 12)%A)) v ->
  yields (Calculate name period [DIVIDE] k) v.
Proof.
  intros Hu Hreg Hd Hx Hk.
  assert (divides registry name period [DIVIDE] = true) as Hdiv.
  { unfold divides. rewrite Hreg. simpl. rewrite Hu, Hd. reflexivity. }
  apply yields_calculate with (x := x); unfold target, convert;
    by rewrite Hdiv.
Qed.

(** A formula of a variable of the five modules, run on the values of its
    dependencies. *)
Lemma has_value_variable (name : string) (period : Period) (var : VariableDef)
    (f : Population -> Period -> (Period -> Parameters.t) -> Formula)
    (v : Value) :
  (list_to_map variables : gmap string VariableDef) !! name = Some var ->
  Period.unit period = definition_period var ->
  formula var = Some f ->
  yields (f population period parameters) v ->
  has_value name period (align_value (count population (entity var)) v).
Proof.
  intros Hreg Hu Hf Hy.
  eapply has_value_formula;
    [by apply registry_variable|exact Hu|exact Hf|exact Hy].
Qed.

(** A variable of the five modules has values only for periods of its
    definition granularity. *)
Lemma has_value_unit_variable (name : string) (period : Period)
    (var : VariableDef) (v : Value) :
  (list_to_map variables : gmap string VariableDef) !! name = Some var ->
  has_value name period v ->
  Period.unit period = definition_period var.
Proof.
  intros Hreg Hv.
  eapply has_value_unit; [by apply registry_variable|exact Hv].
Qed.

Lemma item_align_float (n : nat) (a : Array Q) (i : nat) :
  (i < n)%nat -> Arr.item (align_value n (VFloat a)) i = Arr.item a i.
Proof. intros Hi. simpl. by apply item_align_lt. Qed.

(** *** taxable_income *)

Lemma taxable_income_items (period : Period)
    (salary capital_returns pension se_income : Value) :
  has_value "salary" period salary ->
  has_value "capital_returns" period capital_returns ->
  has_value "pension" period pension ->
  has_value "self_employment_taxable_income" period se_income ->
  exists taxable_income : Value,
    has_value "taxable_income" period taxable_income
    /\ forall (i : nat) (s c p e : Q),
         (i < persons population)%nat ->
         Arr.item salary i = Some s ->
         Arr.item capital_returns i = Some c ->
         Arr.item pension i = Some p ->
         Arr.item se_income i = Some e ->
         Arr.item taxable_income i = Some (s + c + p + e).
Proof.
  intros Hs Hc Hp He. eexists. split.
  - eapply (has_value_variable "taxable_income" period taxes.taxable_income);
      [reflexivity
      | exact (has_value_unit_variable
                 "salary" period income.salary _
                 eq_refl Hs)
      | reflexivity |].
    simpl. unfold call.
    do 4 (eapply yields_call; [eassumption|]).
    apply yields_return.
  - intros i s c p e Hi His Hic Hip Hie.
    rewrite item_align_float by exact Hi.
    unfold Arr.add. rewrite !item_lift2, His, Hic, Hip, Hie. reflexivity.
Qed.

(** C4.  For every person and period, [taxable_income] is
    [salary + capital_returns + pension + self_employment_taxable_income]
    for that period; a person with salary 3000 and the three other amounts
    zero has a taxable income of 3000. *)
Theorem taxable_income_sum (period : Period)
    (salary capital_returns pension se_income : Value) :
  has_value "salary" period salary ->
  has_value "capital_returns" period capital_returns ->
  has_value "pension" period pension ->
  has_value "self_employment_taxable_income" period se_income ->
  exists taxable_income : Value,
    has_value "taxable_income" period taxable_income
    /\ forall (i : nat) (s c p e : Q),
         (i < persons population)%nat ->
         Arr.item salary i = Some s ->
         Arr.item capital_returns i = Some c ->
         Arr.item pension i = Some p ->
         Arr.item se_income i = Some e ->
         exists x : Q,
           Arr.item taxable_income i = Some x
           /\ x == s + c + p + e
           /\ (s == 3000 -> c == 0 -> p == 0 -> e == 0 -> x == 3000).
Proof.
  intros Hs Hc Hp He.
  destruct (taxable_income_items period _ _ _ _ Hs Hc Hp He)
    as (ti & Hti & Hit).
  exists ti. split; [exact Hti|].
  intros i s c p e Hi His Hic Hip Hie.
  exists (s + c + p + e). split; [by apply Hit|].
  split; [reflexivity|]. intros H1 H2 H3 H4. lra.
Qed.

(** *** income_tax *)

Lemma income_tax_items (period : Period)
    (taxable_income age algemene_heffingskorting arbeidskorting : Value) :
  let aow_age :=
    (parameters period).(Parameters.general).(Parameters.age_of_retirement) in
  let scale :=
    (parameters period).(Parameters.taxes)
                       .(Parameters.income_tax_brackets_aow) in
  let scale_regular :=
    (parameters period).(Parameters.taxes).(Parameters.income_tax_brackets) in
  has_value "taxable_income" period taxable_income ->
  has_value "age" period age ->
  has_value "algemene_heffingskorting" period algemene_heffingskorting ->
  has_value "arbeidskorting" period arbeidskorting ->
  TaxScale.valid scale = true ->
  TaxScale.valid scale_regular = true ->
  exists income_tax : Value,
    has_value "income_tax" period income_tax
    /\ forall (i : nat) (t g a b : Q),
         (i < persons population)%nat ->
         Arr.item taxable_income i = Some t ->
         Arr.item age i = Some g ->
         Arr.item algemene_heffingskorting i = Some a ->
         Arr.item arbeidskorting i = Some b ->
         Arr.item income_tax i
         = Some (Qmax ((if Arr.Qgeb g aow_age
                        then TaxScale.tax scale t
                        else TaxScale.tax scale_regular t) - a - b) 0).
Proof.
  intros aow_age scale scale_regular Ht Hg Ha Hb Hs Hr. eexists. split.
  - eapply (has_value_variable "income_tax" period taxes.income_tax);
      [reflexivity
      | exact (has_value_unit_variable
                 "taxable_income" period taxes.taxable_income _
                 eq_refl Ht)
      | reflexivity |].
    simpl. unfold call.
    do 2 (eapply yields_call; [eassumption|]).
    eapply yields_try; [apply calc_valid; exact Hs|].
    eapply yields_try; [apply calc_valid; exact Hr|].
    do 2 (eapply yields_call; [eassumption|]).
    apply yields_return.
  - intros i t g a b Hi Hit Hig Hia Hib.
    rewrite item_align_float by exact Hi.
    unfold Arr.max_, Arr.sub, Arr.where_, Arr.ge.
    rewrite !item_lift2, item_lift3, item_lift2, !item_map.
    rewrite Hit, Hig, Hia, Hib. reflexivity.
Qed.

(** C1.  For every person and period, [income_tax] is
    [max(gross_tax - credits, 0)], where [gross_tax] is the tax of section
    4.2 on the person's [taxable_income], on the scale that applies at the
    person's age, and [credits] is [algemene_heffingskorting] plus
    [arbeidskorting] for the same period; it is never negative. *)
Theorem income_tax_after_credits (period : Period)
    (taxable_income age algemene_heffingskorting arbeidskorting : Value) :
  let aow_age :=
    (parameters period).(Parameters.general).(Parameters.age_of_retirement) in
  let scale :=
    (parameters period).(Parameters.taxes)
                       .(Parameters.income_tax_brackets_aow) in
  let scale_regular :=
    (parameters period).(Parameters.taxes).(Parameters.income_tax_brackets) in
  has_value "taxable_income" period taxable_income ->
  has_value "age" period age ->
  has_value "algemene_heffingskorting" period algemene_heffingskorting ->
  has_value "arbeidskorting" period arbeidskorting ->
  TaxScale.valid scale = true ->
  TaxScale.valid scale_regular = true ->
  exists income_tax : Value,
    has_value "income_tax" period income_tax
    /\ forall (i : nat) (t g a b : Q),
         (i < persons population)%nat ->
         Arr.item taxable_income i = Some t ->
         Arr.item age i = Some g ->
         Arr.item algemene_heffingskorting i = Some a ->
         Arr.item arbeidskorting i = Some b ->
         let gross_tax :=
           TaxScale.tax (if Qle_bool aow_age g then scale else scale_regular)
             t in
         let credits := a + b in
         exists x : Q,
           Arr.item income_tax i = Some x
           /\ x == Qmax (gross_tax - credits) 0
           /\ 0 <= x.
Proof.
  intros aow_age scale scale_regular Ht Hg Ha Hb Hs Hr.
  destruct (income_tax_items period _ _ _ _ Ht Hg Ha Hb Hs Hr)
    as (it & Hit & Hitems).
  exists it. split; [exact Hit|].
  intros i t g a b Hi Hti Hgi Hai Hbi gross_tax credits.
  eexists. split; [by apply Hitems|].
  unfold gross_tax, credits, Arr.Qgeb.
  fold aow_age scale scale_regular.
  split; [|apply Q.le_max_r].
  destruct (Qle_bool aow_age g);
    (apply Q.max_compat; [|reflexivity]); ring.
Qed.

(** C10.  For every person and period, the gross tax inside [income_tax]
    is computed on the [income_tax_brackets_aow] scale when the person's
    age is at least [age_of_retirement], and on the [income_tax_brackets]
    scale otherwise, person by person. *)
Theorem income_tax_scale_by_age (period : Period)
    (taxable_income age algemene_heffingskorting arbeidskorting : Value) :
  let aow_age :=
    (parameters period).(Parameters.general).(Parameters.age_of_retirement) in
  let scale :=
    (parameters period).(Parameters.taxes)
                       .(Parameters.income_tax_brackets_aow) in
  let scale_regular :=
    (parameters period).(Parameters.taxes).(Parameters.income_tax_brackets) in
  has_value "taxable_income" period taxable_income ->
  has_value "age" period age ->
  has_value "algemene_heffingskorting" period algemene_heffingskorting ->
  has_value "arbeidskorting" period arbeidskorting ->
  TaxScale.valid scale = true ->
  TaxScale.valid scale_regular = true ->
  exists income_tax : Value,
    has_value "income_tax" period income_tax
    /\ forall (i : nat) (t g a b : Q),
         (i < persons population)%nat ->
         Arr.item taxable_income i = Some t ->
         Arr.item age i = Some g ->
         Arr.item algemene_heffingskorting i = Some a ->
         Arr.item arbeidskorting i = Some b ->
         exists x : Q,
           Arr.item income_tax i = Some x
           /\ (aow_age <= g -> x == Qmax (TaxScale.tax scale t - a - b) 0)
           /\ (g < aow_age ->
               x == Qmax (TaxScale.tax scale_regular t - a - b) 0).
Proof.
  intros aow_age scale scale_regular Ht Hg Ha Hb Hs Hr.
  destruct (income_tax_items period _ _ _ _ Ht Hg Ha Hb Hs Hr)
    as (it & Hit & Hitems).
  exists it. split; [exact Hit|].
  intros i t g a b Hi Hti Hgi Hai Hbi.
  eexists. split; [by apply Hitems|].
  unfold Arr.Qgeb. fold aow_age scale scale_regular.
  destruct (Qle_bool aow_age g) eqn:E.
  - split; [reflexivity|]. apply Qle_bool_iff in E. intros Hlt. lra.
  - split; [|reflexivity]. intros Hle. apply Qle_bool_iff in Hle. congruence.
Qed.

(** *** self_employment_taxable_income *)

Lemma self_employment_taxable_income_items (period : Period)
    (winst zelfstandigenaftrek mkb : Value) :
  has_value "winst_voor_aftrek" period winst ->
  has_value "zelfstandigenaftrek" period zelfstandigenaftrek ->
  has_value "mkb_winstvrijstelling" period mkb ->
  exists se_income : Value,
    has_value "self_employment_taxable_income" period se_income
    /\ forall (i : nat) (w z m : Q),
         (i < persons population)%nat ->
         Arr.item winst i = Some w ->
         Arr.item zelfstandigenaftrek i = Some z ->
         Arr.item mkb i = Some m ->
         Arr.item se_income i = Some (Qmax (w - z - m) 0).
Proof.
  intros Hw Hz Hm. eexists. split.
  - eapply (has_value_variable "self_employment_taxable_income" period
              self_employment.self_employment_taxable_income);
      [reflexivity
      | exact (has_value_unit_variable
                 "winst_voor_aftrek" period income.winst_voor_aftrek _
                 eq_refl Hw)
      | reflexivity |].
    simpl. unfold call.
    do 3 (eapply yields_call; [eassumption|]).
    apply yields_return.
  - intros i w z m Hi Hiw Hiz Him.
    rewrite item_align_float by exact Hi.
    unfold Arr.max_, Arr.sub. rewrite !item_lift2, Hiw, Hiz, Him.
    reflexivity.
Qed.

(** C5.  [self_employment_taxable_income] and [income_tax] are clamped at
    0 and are never negative; [taxable_income] is the plain sum of its four
    components, without clamp: when the sum is negative, so is
    [taxable_income]. *)
Theorem clamps_where_stated (period : Period) :
  (forall winst zelfstandigenaftrek mkb : Value,
     has_value "winst_voor_aftrek" period winst ->
     has_value "zelfstandigenaftrek" period zelfstandigenaftrek ->
     has_value "mkb_winstvrijstelling" period mkb ->
     exists se_income : Value,
       has_value "self_employment_taxable_income" period se_income
       /\ forall (i : nat) (w z m : Q),
            (i < persons population)%nat ->
            Arr.item winst i = Some w ->
            Arr.item zelfstandigenaftrek i = Some z ->
            Arr.item mkb i = Some m ->
            exists x : Q,
              Arr.item se_income i = Some x
              /\ x == Qmax (w - z - m) 0 /\ 0 <= x)
  /\ (forall taxable_income age algemene_heffingskorting arbeidskorting : Value,
        has_value "taxable_income" period taxable_income ->
        has_value "age" period age ->
        has_value "algemene_heffingskorting" period algemene_heffingskorting ->
        has_value "arbeidskorting" period arbeidskorting ->
        TaxScale.valid
          (parameters period).(Parameters.taxes)
                             .(Parameters.income_tax_brackets_aow) = true ->
        TaxScale.valid
          (parameters period).(Parameters.taxes)
                             .(Parameters.income_tax_brackets) = true ->
        exists income_tax : Value,
          has_value "income_tax" period income_tax
          /\ forall (i : nat) (t g a b : Q),
               (i < persons population)%nat ->
               Arr.item taxable_income i = Some t ->
               Arr.item age i = Some g ->
               Arr.item algemene_heffingskorting i = Some a ->
               Arr.item arbeidskorting i = Some b ->
               exists x : Q, Arr.item income_tax i = Some x /\ 0 <= x)
  /\ (forall salary capital_returns pension se_income : Value,
        has_value "salary" period salary ->
        has_value "capital_returns" period capital_returns ->
        has_value "pension" period pension ->
        has_value "self_employment_taxable_income" period se_income ->
        exists taxable_income : Value,
          has_value "taxable_income" period taxable_income
          /\ forall (i : nat) (s c p e : Q),
               (i < persons population)%nat ->
               Arr.item salary i = Some s ->
               Arr.item capital_returns i = Some c ->
               Arr.item pension i = Some p ->
               Arr.item se_income i = Some e ->
               exists x : Q,
                 Arr.item taxable_income i = Some x
                 /\ x == s + c + p + e
                 /\ (s + c + p + e < 0 -> x < 0)).
Proof.
  split; [|split].
  - intros winst za mkb Hw Hz Hm.
    destruct (self_employment_taxable_income_items period _ _ _ Hw Hz Hm)
      as (se & Hse & Hitems).
    exists se. split; [exact Hse|].
    intros i w z m Hi Hiw Hiz Him.
    eexists. split; [by apply Hitems|]. split; [reflexivity|apply Q.le_max_r].
  - intros ti age ahk ak Ht Hg Ha Hb Hs Hr.
    destruct (income_tax_items period _ _ _ _ Ht Hg Ha Hb Hs Hr)
      as (it & Hit & Hitems).
    exists it. split; [exact Hit|].
    intros i t g a b Hi Hti Hgi Hai Hbi.
    eexists. split; [by apply Hitems|]. apply Q.le_max_r.
  - intros salary cr pension se Hs Hc Hp He.
    destruct (taxable_income_items period _ _ _ _ Hs Hc Hp He)
      as (ti & Hti & Hitems).
    exists ti. split; [exact Hti|].
    intros i s c p e Hi His Hic Hip Hie.
    eexists. split; [by apply Hitems|]. split; [reflexivity|done].
Qed.

(** *** housing_tax *)

(** C9.  For every household and Year period [y], [housing_tax] for [y] is
    [max(accommodation_size * rate, minimal_amount)] when the occupancy
    status of the household in the first month of [y] is owner or tenant,
    and 0 for every other status, the accommodation size being read in that
    first month too; an owner or tenant pays at least [minimal_amount]
    whatever the size. *)
Theorem housing_tax_amount (y : Period) (accommodation_size : Value)
    (HousingOccupancyStatus : list string) (occupancy_status : Array string) :
  let tax_params :=
    (parameters y).(Parameters.taxes).(Parameters.housing_tax) in
  Period.unit y = YEAR ->
  has_value "accommodation_size" (Period.first_month y) accommodation_size ->
  has_value "housing_occupancy_status" (Period.first_month y)
    (VEnum HousingOccupancyStatus occupancy_status) ->
  "tenant" ∈ HousingOccupancyStatus ->
  "owner" ∈ HousingOccupancyStatus ->
  exists housing_tax : Value,
    has_value "housing_tax" y housing_tax
    /\ forall (h : nat) (size : Q) (status : string),
         (h < households population)%nat ->
         Arr.item accommodation_size h = Some size ->
         Arr.item occupancy_status h = Some status ->
         exists x : Q,
           Arr.item housing_tax h = Some x
           /\ (status = "owner" \/ status = "tenant" ->
               x == Qmax (size * tax_params.(Parameters.rate))
                         tax_params.(Parameters.minimal_amount)
               /\ tax_params.(Parameters.minimal_amount) <= x)
           /\ (status <> "owner" -> status <> "tenant" -> x == 0).
Proof.
  intros tax_params Hu Ha Ho Ht Hw. eexists. split.
  - eapply (has_value_variable "housing_tax" y taxes.housing_tax);
      [reflexivity | exact Hu | reflexivity |].
    simpl. unfold call.
    do 2 (eapply yields_call; [eassumption|]).
    eapply yields_try; [unfold Enum.symbol; simpl; by rewrite decide_True|].
    eapply yields_try; [unfold Enum.symbol; simpl; by rewrite decide_True|].
    apply yields_return.
  - intros h size status Hh Hsize Hstatus.
    rewrite item_align_float by exact Hh.
    unfold Arr.mul, Arr.max_, bool_as_float, Arr.of_bool, Arr.bool_add.
    simpl. rewrite !item_lift2, item_map, item_lift2, !item_map.
    rewrite Hsize, Hstatus. simpl. fold tax_params.
    eexists. split; [reflexivity|].
    set (amount := Qmax (size * Parameters.rate tax_params)
                        (Parameters.minimal_amount tax_params)).
    assert (Parameters.minimal_amount tax_params <= amount) as Hmin
      by apply Q.le_max_r.
    destruct (String.eqb_spec status "owner") as [Ho1|Hno];
      destruct (String.eqb_spec status "tenant") as [Ht1|Hnt]; simpl.
    + congruence.
    + split; [intros _; split; lra | intros Hc; by destruct Hc].
    + split; [intros _; split; lra | intros _ Hc; by destruct Hc].
    + split; [intros [?|?]; contradiction | intros _ _; lra].
Qed.

(** *** housing_tax inside the monthly formulas *)

(** C3.  For every household, every Year period [y] and every month [m] of
    [y], the housing tax that enters a Month formula is [housing_tax] for
    [y] divided by 12: in [disposable_income] through the divide option,
    in [total_taxes] through the explicit division.  The amount is the same
    for each of the 12 months. *)
Theorem housing_tax_twelfth (y : Period) (housing_tax : Value) :
  Period.unit y = YEAR -> Period.valid y = true ->
  has_value "housing_tax" y housing_tax ->
  forall m : Period, m ∈ Period.months_of y ->
    (forall salary se_income capital_returns pension income_tax
            social_security_contribution : Value,
       has_value "salary" m salary ->
       has_value "self_employment_taxable_income" m se_income ->
       has_value "capital_returns" m capital_returns ->
       has_value "pension" m pension ->
       has_value "income_tax" m income_tax ->
       has_value "social_security_contribution" m
         social_security_contribution ->
       exists disposable_income : Value,
         has_value "disposable_income" m disposable_income
         /\ forall (h : nat) (t : Q),
              (h < households population)%nat ->
              Arr.item housing_tax h = Some t ->
              exists x : Q,
                Arr.item disposable_income h = Some x
                /\ x == household_total population salary h
                        + household_total population se_income h
                        + household_total population capital_returns h
                        + household_total population pension h
                        - household_total population income_tax h
                        - t / 12
                        - household_total population
                            social_security_contribution h)
    /\ (forall income_tax social_security_contribution : Value,
          has_value "income_tax" m income_tax ->
          has_value "social_security_contribution" m
            social_security_contribution ->
          exists total_taxes : Value,
            has_value "total_taxes" m total_taxes
            /\ forall (h : nat) (t : Q),
                 (h < households population)%nat ->
                 Arr.item housing_tax h = Some t ->
                 exists x : Q,
                   Arr.item total_taxes h = Some x
                   /\ x == household_total population income_tax h
                           + household_total population
                               social_security_contribution h
                           + t / 12).
Proof.
  intros Hu Hv Hht m Hm.
  pose proof (this_year_months_of y m Hu Hv Hm) as Hyear.
  apply months_of_elem in Hm as (Hmu & _).
  split.
  - intros salary se cr pension it ssc Hs Hse Hc Hp Hit Hssc.
    eexists. split.
    + eapply (has_value_variable "disposable_income" m
                income.disposable_income);
        [reflexivity | exact Hmu | reflexivity |].
      simpl. unfold members, call_with.
      do 5 (eapply yields_call; [eassumption|]).
      eapply (yields_divide "housing_tax" m taxes.housing_tax);
        [exact Hmu | by apply registry_variable | reflexivity
        | by rewrite Hyear |].
      eapply yields_call; [eassumption|].
      apply yields_return.
    + intros h t Hh Ht.
      rewrite item_align_float by exact Hh.
      unfold Arr.add, Arr.sub, Arr.div. simpl.
      rewrite !item_lift2, !item_sum by exact Hh.
      rewrite Ht. simpl.
      eexists. split; reflexivity.
  - intros it ssc Hit Hssc.
    eexists. split.
    + eapply (has_value_variable "total_taxes" m stats.total_taxes);
        [reflexivity | exact Hmu | reflexivity |].
      simpl. unfold members, call.
      do 2 (eapply yields_call; [eassumption|]).
      eapply yields_call; [by rewrite Hyear|].
      apply yields_return.
    + intros h t Hh Ht.
      rewrite item_align_float by exact Hh.
      unfold Arr.add, Arr.div.
      rewrite !item_lift2, !item_sum by exact Hh.
      rewrite Ht. simpl.
      eexists. split; reflexivity.
Qed.

End FormulaFacts.

Lemma taxable_income_sum_sample :
  exists (taxable_income : Value) (x : Q),
    has_value Sample.registry Sample.couple Sample.parameters Sample.inputs
      "taxable_income" Sample.march taxable_income
    /\ Arr.item taxable_income 0 = Some x /\ x == 3000.
Proof.
  sample_value Sample.inputs "salary" Sample.march Hs.
  sample_value Sample.inputs "capital_returns" Sample.march Hc.
  sample_value Sample.inputs "pension" Sample.march Hp.
  sample_value Sample.inputs "self_employment_taxable_income" Sample.march He.
  destruct (taxable_income_sum Sample.others Sample.couple Sample.parameters
              Sample.inputs Sample.march _ _ _ _ Hs Hc Hp He)
    as (ti & Hti & Hit).
  destruct (Hit 0%nat _ _ _ _ ltac:(simpl; lia) eq_refl eq_refl eq_refl eq_refl)
    as (x & Hx & _ & H3000).
  exists ti, x. split; [exact Hti|]. split; [exact Hx|].
  apply H3000; reflexivity.
Defined.

Lemma income_tax_after_credits_sample :
  exists (income_tax : Value) (x : Q),
    has_value Sample.registry Sample.couple Sample.parameters Sample.inputs
      "income_tax" Sample.march income_tax
    /\ Arr.item income_tax 0 = Some x /\ x == 10 /\ 0 <= x.
Proof.
  sample_value Sample.inputs "taxable_income" Sample.march Ht.
  sample_value Sample.inputs "age" Sample.march Hg.
  sample_value Sample.inputs "algemene_heffingskorting" Sample.march Ha.
  sample_value Sample.inputs "arbeidskorting" Sample.march Hb.
  destruct (income_tax_after_credits Sample.others Sample.couple
              Sample.parameters Sample.inputs Sample.march _ _ _ _
              Ht Hg Ha Hb eq_refl eq_refl)
    as (it & Hit & Hitems).
  destruct (Hitems 0%nat _ _ _ _ ltac:(simpl; lia)
              eq_refl eq_refl eq_refl eq_refl)
    as (x & Hx & Hmax & Hpos).
  exists it, x. split; [exact Hit|]. split; [exact Hx|].
  split; [|exact Hpos]. rewrite Hmax. reflexivity.
Defined.

Lemma income_tax_scale_by_age_sample :
  exists (income_tax : Value) (x0 x1 : Q),
    has_value Sample.registry Sample.couple Sample.parameters Sample.inputs
      "income_tax" Sample.march income_tax
    /\ Arr.item income_tax 0 = Some x0
    /\ x0 == Qmax (TaxScale.tax [(0, 1 # 10); (2000, 3 # 10)] 3000
                   - 190 - 300) 0
    /\ Arr.item income_tax 1 = Some x1
    /\ x1 == Qmax (TaxScale.tax [(0, 5 # 100); (2000, 3 # 10)] 900
                   - 250 - 100) 0.
Proof.
  sample_value Sample.inputs "taxable_income" Sample.march Ht.
  sample_value Sample.inputs "age" Sample.march Hg.
  sample_value Sample.inputs "algemene_heffingskorting" Sample.march Ha.
  sample_value Sample.inputs "arbeidskorting" Sample.march Hb.
  destruct (income_tax_scale_by_age Sample.others Sample.couple
              Sample.parameters Sample.inputs Sample.march _ _ _ _
              Ht Hg Ha Hb eq_refl eq_refl)
    as (it & Hit & Hitems).
  destruct (Hitems 0%nat _ _ _ _ ltac:(simpl; lia)
              eq_refl eq_refl eq_refl eq_refl)
    as (x0 & Hx0 & _ & Hreg).
  destruct (Hitems 1%nat _ _ _ _ ltac:(simpl; lia)
              eq_refl eq_refl eq_refl eq_refl)
    as (x1 & Hx1 & Haow & _).
  exists it, x0, x1. split; [exact Hit|]. split; [exact Hx0|].
  split; [|split; [exact Hx1|]].
  - rewrite Hreg by (vm_compute; reflexivity). reflexivity.
  - rewrite Haow by (vm_compute; discriminate). reflexivity.
Defined.

Lemma clamps_where_stated_sample :
  exists (taxable_income : Value) (x : Q),
    has_value Sample.registry Sample.couple Sample.parameters
      Sample.loss_inputs "taxable_income" Sample.march taxable_income
    /\ Arr.item taxable_income 0 = Some x /\ x == -100 /\ x < 0.
Proof.
  destruct (clamps_where_stated Sample.others Sample.couple Sample.parameters
              Sample.loss_inputs Sample.march) as (_ & _ & Hti).
  sample_value Sample.loss_inputs "salary" Sample.march Hs.
  sample_value Sample.loss_inputs "capital_returns" Sample.march Hc.
  sample_value Sample.loss_inputs "pension" Sample.march Hp.
  sample_value Sample.loss_inputs "self_employment_taxable_income"
    Sample.march He.
  destruct (Hti _ _ _ _ Hs Hc Hp He) as (ti & Hv & Hitems).
  destruct (Hitems 0%nat _ _ _ _ ltac:(simpl; lia)
              eq_refl eq_refl eq_refl eq_refl)
    as (x & Hx & Hsum & Hneg).
  exists ti, x. split; [exact Hv|]. split; [exact Hx|].
  split; [rewrite Hsum; reflexivity|]. apply Hneg. reflexivity.
Defined.

Lemma housing_tax_amount_sample :
  exists (housing_tax : Value) (x : Q),
    has_value Sample.registry Sample.couple Sample.parameters
      Sample.housing_inputs "housing_tax" Sample.year_2024 housing_tax
    /\ Arr.item housing_tax 0 = Some x /\ x == 200.
Proof.
  sample_value Sample.housing_inputs "accommodation_size"
    (Period.first_month Sample.year_2024) Ha.
  sample_value Sample.housing_inputs "housing_occupancy_status"
    (Period.first_month Sample.year_2024) Ho.
  destruct (housing_tax_amount Sample.others Sample.couple Sample.parameters
              Sample.housing_inputs Sample.year_2024 _ _ _ eq_refl Ha Ho)
    as (ht & Hht & Hitems); [repeat constructor..|].
  destruct (Hitems 0%nat _ _ ltac:(simpl; lia) eq_refl eq_refl)
    as (x & Hx & Howner & _).
  exists ht, x. split; [exact Hht|]. split; [exact Hx|].
  destruct (Howner (or_introl eq_refl)) as [-> _]. reflexivity.
Defined.

Lemma housing_tax_twelfth_sample :
  exists (disposable_income total_taxes : Value) (x1 x2 : Q),
    has_value Sample.registry Sample.couple Sample.parameters
      Sample.housing_inputs "disposable_income" Sample.march disposable_income
    /\ Arr.item disposable_income 0 = Some x1 /\ x1 == 11380 # 3
    /\ has_value Sample.registry Sample.couple Sample.parameters
         Sample.housing_inputs "total_taxes" Sample.march total_taxes
    /\ Arr.item total_taxes 0 = Some x2 /\ x2 == 320 # 3.
Proof.
  sample_value Sample.housing_inputs "housing_tax" Sample.year_2024 Hht.
  assert (Sample.march ∈ Period.months_of Sample.year_2024) as Hm.
  { apply list_elem_of_lookup. by exists 2%nat. }
  destruct (housing_tax_twelfth Sample.others Sample.couple Sample.parameters
              Sample.housing_inputs Sample.year_2024 _ eq_refl eq_refl Hht
              Sample.march Hm) as [Hdi Htt].
  sample_value Sample.housing_inputs "salary" Sample.march Hs.
  sample_value Sample.housing_inputs "self_employment_taxable_income"
    Sample.march Hse.
  sample_value Sample.housing_inputs "capital_returns" Sample.march Hc.
  sample_value Sample.housing_inputs "pension" Sample.march Hp.
  sample_value Sample.housing_inputs "income_tax" Sample.march Hit.
  sample_value Sample.housing_inputs "social_security_contribution"
    Sample.march Hssc.
  destruct (Hdi _ _ _ _ _ _ Hs Hse Hc Hp Hit Hssc) as (di & Hv1 & Hitems1).
  destruct (Htt _ _ Hit Hssc) as (tt & Hv2 & Hitems2).
  destruct (Hitems1 0%nat _ ltac:(simpl; lia) eq_refl) as (x1 & Hx1 & He1).
  destruct (Hitems2 0%nat _ ltac:(simpl; lia) eq_refl) as (x2 & Hx2 & He2).
  exists di, tt, x1, x2.
  split; [exact Hv1|]. split; [exact Hx1|]. split; [rewrite He1; reflexivity|].
  split; [exact Hv2|]. split; [exact Hx2|]. rewrite He2; reflexivity.
Defined.

(** ** Formulas that fail *)

Section FailureFacts.

Context (registry : gmap string VariableDef).
Context (population : Population).
Context (parameters : Period -> Parameters.t).
Context (inputs : gmap Key Value).

Local Abbreviation value_of :=
  (value_of registry population parameters inputs).
Local Abbreviation evaluate :=
  (evaluate registry population parameters inputs).
Local Abbreviation has_value :=
  (has_value registry population parameters inputs).
Local Abbreviation raises :=
  (raises registry population parameters inputs).
Local Abbreviation cache_coherent :=
  (cache_coherent registry population parameters inputs).
Local Abbreviation pending_open :=
  (pending_open registry population parameters inputs).
Local Abbreviation target := (target registry).
Local Abbreviation convert := (convert registry).
Local Abbreviation interp_with := (interp_with registry).
Local Abbreviation run_with := (run_with registry).

(** In the reference semantics a failing formula never returns. *)
Lemma raises_interp (prog : Formula) (e : Error) (fuel : nat) (v : Value) :
  raises prog e -> interp_with (value_of fuel) prog <> Ok v.
Proof.
  induction 1 as [e|name period options k x e Hx _ IH]; simpl; [discriminate|].
  destruct (value_of fuel name (target name period options)) as [y|e'] eqn:E;
    [|discriminate].
  apply has_value_iff in Hx as [f Hx].
  by rewrite (value_of_inj _ _ _ _ _ _ _ _ _ _ E Hx).
Qed.

Lemma raises_no_value (name : string) (period : Period) (var : VariableDef)
    (f : Population -> Period -> (Period -> Parameters.t) -> Formula)
    (e : Error) (fuel : nat) (v : Value) :
  registry !! name = Some var -> formula var = Some f ->
  raises (f population period parameters) e ->
  value_of fuel name period <> Ok v.
Proof.
  intros Hreg Hf Hr. destruct fuel as [|fuel]; simpl; [discriminate|].
  rewrite Hreg. case_decide; [|discriminate]. rewrite Hf.
  destruct (interp_with _ (f population period parameters)) as [w|e'] eqn:E;
    [|discriminate].
  by apply raises_interp with (fuel := fuel) (v := w) in Hr.
Qed.

Lemma raises_run (prog : Formula) (e : Error) :
  raises prog e ->
  exists fuel : nat, forall (fuel' : nat) (s : State),
    (fuel <= fuel')%nat -> cache_coherent s ->
    (forall n, pending_open n s) ->
    run_with (evaluate fuel') prog s = Err e.
Proof.
  induction 1 as [e|name period options k x e Hx _ [f2 IH]].
  - by exists 0%nat.
  - apply has_value_iff in Hx as [f1 Hx]. exists (Nat.max f1 f2).
    intros fuel' s Hle Hs Hp. simpl.
    destruct (evaluate_complete registry population parameters inputs
                f1 fuel' name (target name period options) x s)
      as (s1 & -> & Hs1 & Hp1); [lia|exact Hx|exact Hs|apply Hp|].
    apply IH; [lia|exact Hs1|].
    intros n m p Hin. apply (Hp n). by rewrite <- Hp1.
Qed.

(** A variable whose formula fails with [e] after its requests were
    answered has no value, and a calculation run of it ends with [e]. *)
Lemma raises_calculate_error (name : string) (period : Period)
    (var : VariableDef)
    (f : Population -> Period -> (Period -> Parameters.t) -> Formula)
    (e : Error) :
  registry !! name = Some var ->
  Period.unit period = definition_period var ->
  formula var = Some f ->
  raises (f population period parameters) e ->
  (forall v : Value, ~ has_value name period v)
  /\ exists fuel : nat, forall fuel' : nat, (fuel <= fuel')%nat ->
       calculate registry population parameters inputs fuel' name period
       = Err e.
Proof.
  intros Hreg Hu Hf Hr. split.
  - intros v Hv. apply has_value_iff in Hv as [fuel Hv].
    by eapply raises_no_value in Hv.
  - destruct (raises_run _ _ Hr) as [fuel Hrun]. exists (S fuel).
    intros fuel' Hle. destruct fuel' as [|fuel']; [lia|].
    unfold calculate. simpl.
    rewrite lookup_empty, Hreg, decide_True, Hf by exact Hu.
    try rewrite decide_False by apply not_elem_of_nil.
    rewrite Hrun; [reflexivity|lia| |].
    + intros n p v H. simpl in H. by rewrite lookup_empty in H.
    + intros n m p Hin. simpl in Hin.
      apply list_elem_of_singleton in Hin. injection Hin as -> ->.
      intros v. by eapply raises_no_value.
Qed.

End FailureFacts.

(** ** Further properties of the formulas *)

(** *** Arithmetic of the credits and deductions *)

Section AmountFacts.

Local Open Scope Q_scope.

Lemma general_credit_nonneg (M T r t : Q) :
  0 <= Qmax (M - Qmax (t * 12 - T) 0 * r) 0 / 12.
Proof. amounts. Qed.

Lemma general_credit_at_most (M T r t : Q) :
  0 <= M -> 0 <= r -> Qmax (M - Qmax (t * 12 - T) 0 * r) 0 / 12 <= M / 12.
Proof. intros. amounts. Qed.

Lemma general_credit_full (M T r t : Q) :
  t * 12 <= T ->
  Qmax (M - Qmax (t * 12 - T) 0 * r) 0 / 12 == Qmax M 0 / 12.
Proof.
  intros.
  assert (Qmax (t * 12 - T) 0 == 0) as -> by (apply Q.max_r; lra).
  assert (M - 0 * r == M) as -> by ring. reflexivity.
Qed.

Lemma general_credit_decreasing (M T r t t' : Q) :
  0 <= r -> t <= t' ->
  Qmax (M - Qmax (t' * 12 - T) 0 * r) 0 / 12
  <= Qmax (M - Qmax (t * 12 - T) 0 * r) 0 / 12.
Proof. intros. amounts. Qed.

Lemma labor_credit_nonneg (M I b r l : Q) :
  0 <= Qmax 0 (Qmin (l * 12 * b) M - Qmax (l * 12 - I) 0 * r) / 12.
Proof. amounts. Qed.

Lemma labor_credit_at_most (M I b r l : Q) :
  0 <= M -> 0 <= r ->
  Qmax 0 (Qmin (l * 12 * b) M - Qmax (l * 12 - I) 0 * r) / 12 <= M / 12.
Proof. intros. amounts. Qed.

Lemma labor_credit_zero (M I b r l : Q) :
  0 <= b -> 0 <= r -> l <= 0 ->
  Qmax 0 (Qmin (l * 12 * b) M - Qmax (l * 12 - I) 0 * r) / 12 == 0.
Proof. intros. amounts. Qed.

Lemma labor_credit_buildup (M I b r l : Q) :
  l * 12 <= I -> 0 <= l * 12 * b -> l * 12 * b <= M ->
  Qmax 0 (Qmin (l * 12 * b) M - Qmax (l * 12 - I) 0 * r) / 12 == l * b.
Proof.
  intros.
  assert (Qmax (l * 12 - I) 0 == 0) as -> by (apply Q.max_r; lra).
  assert (Qmin (l * 12 * b) M == l * 12 * b) as -> by (apply Q.min_l; lra).
  assert (Qmax 0 (l * 12 * b - 0 * r) == l * 12 * b) as ->
    by (rewrite Q.max_r; [ring | lra]).
  field.
Qed.

Lemma exemption_complement (w z r : Q) :
  0 <= r -> r <= 1 ->
  Qmax (w - z - Qmax (w - z) 0 * r) 0 == Qmax (w - z) 0 * (1 - r).
Proof. intros. amounts. Qed.

Lemma exemption_of_loss (w z r : Q) :
  w <= z -> Qmax (w - z) 0 * r == 0
            /\ Qmax (w - z - Qmax (w - z) 0 * r) 0 == 0.
Proof.
  intros.
  assert (Qmax (w - z) 0 == 0) as -> by (apply Q.max_r; lra).
  split; [ring|]. apply Q.max_r. lra.
Qed.


End AmountFacts.

Section CreditFacts.

Context (others : gmap string VariableDef).
Context (population : Population).
Context (parameters : Period -> Parameters.t).
Context (inputs : gmap Key Value).

Local Abbreviation registry := (tax_benefit_system others).
Local Abbreviation has_value :=
  (has_value registry population parameters inputs).
Local Abbreviation yields :=
  (yields registry population parameters inputs).
Local Abbreviation has_value_variable :=
  (has_value_variable others population parameters inputs).
Local Abbreviation yields_call :=
  (yields_call others population parameters inputs).
Local Abbreviation yields_try :=
  (yields_try others population parameters inputs).

(** *** algemene_heffingskorting *)

Lemma algemene_heffingskorting_items (period : Period)
    (taxable_income : Value) :
  let params :=
    (parameters period).(Parameters.taxes).(Parameters.tax_credits) in
  has_value "taxable_income" period taxable_income ->
  exists credit : Value,
    has_value "algemene_heffingskorting" period credit
    /\ forall (i : nat) (t : Q),
         (i < persons population)%nat ->
         Arr.item taxable_income i = Some t ->
         Arr.item credit i
         = Some
             (Qmax
                (Parameters.algemene_heffingskorting_max params
                 - Qmax
                     (t * 12
                      - Parameters.algemene_heffingskorting_income_threshold
                          params)
                     0
                   * Parameters.algemene_heffingskorting_phase_out_rate
                       params)
                0 / 12).
Proof.
  intros params Ht. eexists. split.
  - eapply (has_value_variable "algemene_heffingskorting" period
              taxes.algemene_heffingskorting);
      [reflexivity
      | exact (has_value_unit_variable others population parameters inputs
                 "taxable_income" period taxes.taxable_income _
                 eq_refl Ht)
      | reflexivity |].
    simpl. unfold call.
    eapply yields_call; [eassumption|].
    apply yields_return.
  - intros i t Hi Hit.
    rewrite item_align_float by exact Hi.
    unfold Arr.div, Arr.max_, Arr.sub, Arr.mul.
    rewrite !item_lift2. simpl. rewrite Hit. reflexivity.
Qed.

(** X1.  The general tax credit of a person is never negative; when the
    maximum credit and the phase-out rate are not negative it is at most a
    twelfth of the maximum; and a person whose annualised taxable income
    does not exceed the threshold gets the full twelfth of the maximum. *)
Theorem algemene_heffingskorting_bounds (period : Period)
    (taxable_income : Value) :
  let params :=
    (parameters period).(Parameters.taxes).(Parameters.tax_credits) in
  let max_credit := params.(Parameters.algemene_heffingskorting_max) in
  let threshold :=
    params.(Parameters.algemene_heffingskorting_income_threshold) in
  let phase_out_rate :=
    params.(Parameters.algemene_heffingskorting_phase_out_rate) in
  has_value "taxable_income" period taxable_income ->
  exists credit : Value,
    has_value "algemene_heffingskorting" period credit
    /\ forall (i : nat) (t : Q),
         (i < persons population)%nat ->
         Arr.item taxable_income i = Some t ->
         exists a : Q,
           Arr.item credit i = Some a
           /\ 0 <= a
           /\ (0 <= max_credit -> 0 <= phase_out_rate -> a <= max_credit / 12)
           /\ (t * 12 <= threshold -> a == Qmax max_credit 0 / 12).
Proof.
  intros params max_credit threshold phase_out_rate Ht.
  destruct (algemene_heffingskorting_items period _ Ht) as (c & Hc & Hitems).
  exists c. split; [exact Hc|].
  intros i t Hi Hit. eexists. split; [by apply Hitems|].
  fold params max_credit threshold phase_out_rate.
  split; [apply general_credit_nonneg|].
  split; [apply general_credit_at_most | apply general_credit_full].
Qed.

(** X2.  When the phase-out rate is not negative, the general tax credit
    does not grow with taxable income: of two persons, the one with the
    higher taxable income gets at most the credit of the other. *)
Theorem algemene_heffingskorting_decreasing (period : Period)
    (taxable_income : Value) :
  0 <= (parameters period).(Parameters.taxes).(Parameters.tax_credits)
         .(Parameters.algemene_heffingskorting_phase_out_rate) ->
  has_value "taxable_income" period taxable_income ->
  exists credit : Value,
    has_value "algemene_heffingskorting" period credit
    /\ forall (i j : nat) (t t' : Q),
         (i < persons population)%nat -> (j < persons population)%nat ->
         Arr.item taxable_income i = Some t ->
         Arr.item taxable_income j = Some t' ->
         t <= t' ->
         exists a a' : Q,
           Arr.item credit i = Some a /\ Arr.item credit j = Some a'
           /\ a' <= a.
Proof.
  intros Hr Ht.
  destruct (algemene_heffingskorting_items period _ Ht) as (c & Hc & Hitems).
  exists c. split; [exact Hc|].
  intros i j t t' Hi Hj Hit Hjt Hle. eexists _, _.
  split; [by apply Hitems|]. split; [by apply Hitems|].
  by apply general_credit_decreasing.
Qed.

(** *** arbeidsinkomen and arbeidskorting *)

Lemma arbeidsinkomen_items (period : Period) (salary se_income : Value) :
  has_value "salary" period salary ->
  has_value "self_employment_taxable_income" period se_income ->
  exists labor : Value,
    has_value "arbeidsinkomen" period labor
    /\ forall (i : nat) (s e : Q),
         (i < persons population)%nat ->
         Arr.item salary i = Some s ->
         Arr.item se_income i = Some e ->
         Arr.item labor i = Some (s + e).
Proof.
  intros Hs He. eexists. split.
  - eapply (has_value_variable "arbeidsinkomen" period taxes.arbeidsinkomen);
      [reflexivity
      | exact (has_value_unit_variable others population parameters inputs
                 "salary" period income.salary _
                 eq_refl Hs)
      | reflexivity |].
    simpl. unfold call.
    do 2 (eapply yields_call; [eassumption|]).
    apply yields_return.
  - intros i s e Hi His Hie.
    rewrite item_align_float by exact Hi.
    unfold Arr.add. rewrite item_lift2, His, Hie. reflexivity.
Qed.

Lemma arbeidskorting_items (period : Period) (labor : Value) :
  let params :=
    (parameters period).(Parameters.taxes).(Parameters.tax_credits) in
  has_value "arbeidsinkomen" period labor ->
  exists credit : Value,
    has_value "arbeidskorting" period credit
    /\ forall (i : nat) (l : Q),
         (i < persons population)%nat ->
         Arr.item labor i = Some l ->
         Arr.item credit i
         = Some
             (Qmax 0
                (Qmin (l * 12 * params.(Parameters.arbeidskorting_buildup_rate))
                      params.(Parameters.arbeidskorting_max)
                 - Qmax (l * 12 - params.(Parameters.arbeidskorting_max_income))
                        0
                   * params.(Parameters.arbeidskorting_phase_out_rate))
              / 12).
Proof.
  intros params Hl. eexists. split.
  - eapply (has_value_variable "arbeidskorting" period taxes.arbeidskorting);
      [reflexivity
      | exact (has_value_unit_variable others population parameters inputs
                 "arbeidsinkomen" period taxes.arbeidsinkomen _
                 eq_refl Hl)
      | reflexivity |].
    simpl. unfold call.
    eapply yields_call; [eassumption|].
    apply yields_return.
  - intros i l Hi Hil.
    rewrite item_align_float by exact Hi.
    unfold Arr.div, Arr.max_, Arr.min_, Arr.sub, Arr.mul.
    rewrite !item_lift2. simpl. rewrite Hil. reflexivity.
Qed.

(** X3.  The labor tax credit of a person is never negative; when the
    maximum credit and the phase-out rate are not negative it is at most a
    twelfth of the maximum; and with non-negative build-up and phase-out
    rates a person without positive labor income gets no credit. *)
Theorem arbeidskorting_bounds (period : Period) (labor : Value) :
  let params :=
    (parameters period).(Parameters.taxes).(Parameters.tax_credits) in
  let max_credit := params.(Parameters.arbeidskorting_max) in
  let buildup_rate := params.(Parameters.arbeidskorting_buildup_rate) in
  let phase_out_rate := params.(Parameters.arbeidskorting_phase_out_rate) in
  has_value "arbeidsinkomen" period labor ->
  exists credit : Value,
    has_value "arbeidskorting" period credit
    /\ forall (i : nat) (l : Q),
         (i < persons population)%nat ->
         Arr.item labor i = Some l ->
         exists a : Q,
           Arr.item credit i = Some a
           /\ 0 <= a
           /\ (0 <= max_credit -> 0 <= phase_out_rate -> a <= max_credit / 12)
           /\ (0 <= buildup_rate -> 0 <= phase_out_rate -> l <= 0 -> a == 0).
Proof.
  intros params max_credit buildup_rate phase_out_rate Hl.
  destruct (arbeidskorting_items period _ Hl) as (c & Hc & Hitems).
  exists c. split; [exact Hc|].
  intros i l Hi Hil. eexists. split; [by apply Hitems|].
  fold params max_credit buildup_rate phase_out_rate.
  split; [apply labor_credit_nonneg|].
  split; [apply labor_credit_at_most | apply labor_credit_zero].
Qed.

(** X4.  While the annualised labor income of a person is at most the
    income of the maximum, and the built-up credit is between 0 and the
    maximum credit, the monthly labor tax credit is the monthly labor
    income times the build-up rate. *)
Theorem arbeidskorting_buildup (period : Period) (labor : Value) :
  let params :=
    (parameters period).(Parameters.taxes).(Parameters.tax_credits) in
  let max_credit := params.(Parameters.arbeidskorting_max) in
  let max_income := params.(Parameters.arbeidskorting_max_income) in
  let buildup_rate := params.(Parameters.arbeidskorting_buildup_rate) in
  has_value "arbeidsinkomen" period labor ->
  exists credit : Value,
    has_value "arbeidskorting" period credit
    /\ forall (i : nat) (l : Q),
         (i < persons population)%nat ->
         Arr.item labor i = Some l ->
         l * 12 <= max_income ->
         0 <= l * 12 * buildup_rate ->
         l * 12 * buildup_rate <= max_credit ->
         exists a : Q, Arr.item credit i = Some a /\ a == l * buildup_rate.
Proof.
  intros params max_credit max_income buildup_rate Hl.
  destruct (arbeidskorting_items period _ Hl) as (c & Hc & Hitems).
  exists c. split; [exact Hc|].
  intros i l Hi Hil H1 H2 H3. eexists. split; [by apply Hitems|].
  fold params max_credit max_income buildup_rate.
  by apply labor_credit_buildup.
Qed.

End CreditFacts.

Section SelfEmploymentFacts.

Context (others : gmap string VariableDef).
Context (population : Population).
Context (parameters : Period -> Parameters.t).
Context (inputs : gmap Key Value).

Local Abbreviation registry := (tax_benefit_system others).
Local Abbreviation has_value :=
  (has_value registry population parameters inputs).
Local Abbreviation yields :=
  (yields registry population parameters inputs).
Local Abbreviation has_value_variable :=
  (has_value_variable others population parameters inputs).
Local Abbreviation yields_call :=
  (yields_call others population parameters inputs).

(** *** winst_voor_aftrek, zelfstandigenaftrek, mkb_winstvrijstelling *)

Lemma winst_voor_aftrek_items (period : Period) (omzet kosten : Value) :
  has_value "omzet" period omzet ->
  has_value "kosten" period kosten ->
  exists winst : Value,
    has_value "winst_voor_aftrek" period winst
    /\ forall (i : nat) (o k : Q),
         (i < persons population)%nat ->
         Arr.item omzet i = Some o ->
         Arr.item kosten i = Some k ->
         Arr.item winst i = Some (o - k).
Proof.
  intros Ho Hk. eexists. split.
  - eapply (has_value_variable "winst_voor_aftrek" period
              income.winst_voor_aftrek);
      [reflexivity
      | exact (has_value_unit_variable others population parameters inputs
                 "omzet" period income.omzet _
                 eq_refl Ho)
      | reflexivity |].
    simpl. unfold call.
    do 2 (eapply yields_call; [eassumption|]).
    apply yields_return.
  - intros i o k Hi Hio Hik.
    rewrite item_align_float by exact Hi.
    unfold Arr.sub. rewrite item_lift2, Hio, Hik. reflexivity.
Qed.

Lemma zelfstandigenaftrek_items (period : Period) (met : Array bool) :
  Period.unit period = MONTH ->
  has_value "urencriterium_voldaan" (Period.this_year period) (VBool met) ->
  exists aftrek : Value,
    has_value "zelfstandigenaftrek" period aftrek
    /\ forall (i : nat) (b : bool),
         (i < persons population)%nat ->
         Arr.item met i = Some b ->
         Arr.item aftrek i
         = Some ((if b then 1 else 0)
                 * ((parameters period).(Parameters.self_employment)
                      .(Parameters.zelfstandigenaftrek) / 12)).
Proof.
  intros Hu Hm. eexists. split.
  - eapply (has_value_variable "zelfstandigenaftrek" period
              self_employment.zelfstandigenaftrek);
      [reflexivity | exact Hu | reflexivity |].
    simpl. unfold call.
    eapply yields_call; [eassumption|].
    apply yields_return.
  - intros i b Hi Hib.
    rewrite item_align_float by exact Hi.
    unfold Arr.mul. rewrite item_lift2. simpl.
    unfold Arr.of_bool. rewrite item_map, Hib. reflexivity.
Qed.

(** X5.  The self-employed deduction of a month is a twelfth of the
    yearly deduction for a person who meets the hours criterion in the
    year of that month, and 0 for a person who does not. *)
Theorem zelfstandigenaftrek_by_hours_criterion (period : Period)
    (met : Array bool) :
  Period.unit period = MONTH ->
  has_value "urencriterium_voldaan" (Period.this_year period) (VBool met) ->
  exists aftrek : Value,
    has_value "zelfstandigenaftrek" period aftrek
    /\ forall (i : nat) (b : bool),
         (i < persons population)%nat ->
         Arr.item met i = Some b ->
         exists x : Q,
           Arr.item aftrek i = Some x
           /\ x == (if b
                    then (parameters period).(Parameters.self_employment)
                           .(Parameters.zelfstandigenaftrek) / 12
                    else 0).
Proof.
  intros Hu Hm.
  destruct (zelfstandigenaftrek_items period met Hu Hm) as (z & Hz & Hitems).
  exists z. split; [exact Hz|].
  intros i b Hi Hib. eexists. split; [by apply Hitems|].
  destruct b; ring.
Qed.

Lemma mkb_winstvrijstelling_items (period : Period) (winst aftrek : Value) :
  has_value "winst_voor_aftrek" period winst ->
  has_value "zelfstandigenaftrek" period aftrek ->
  exists mkb : Value,
    has_value "mkb_winstvrijstelling" period mkb
    /\ forall (i : nat) (w z : Q),
         (i < persons population)%nat ->
         Arr.item winst i = Some w ->
         Arr.item aftrek i = Some z ->
         Arr.item mkb i
         = Some (Qmax (w - z) 0
                 * (parameters period).(Parameters.self_employment)
                     .(Parameters.mkb_winstvrijstelling_rate)).
Proof.
  intros Hw Hz. eexists. split.
  - eapply (has_value_variable "mkb_winstvrijstelling" period
              self_employment.mkb_winstvrijstelling);
      [reflexivity
      | exact (has_value_unit_variable others population parameters inputs
                 "winst_voor_aftrek" period income.winst_voor_aftrek _
                 eq_refl Hw)
      | reflexivity |].
    simpl. unfold call.
    do 2 (eapply yields_call; [eassumption|]).
    apply yields_return.
  - intros i w z Hi Hiw Hiz.
    rewrite item_align_float by exact Hi.
    unfold Arr.mul, Arr.max_, Arr.sub. rewrite !item_lift2. simpl.
    rewrite Hiw, Hiz. reflexivity.
Qed.

(** X6.  The SME profit exemption of a person is the exemption rate times
    the profit left after the self-employed deduction, counted as 0 when
    that is negative: it is 0 when the profit does not exceed the
    deduction, not negative when the rate is not negative, and at most the
    profit after deduction when the rate is between 0 and 1. *)
Theorem mkb_winstvrijstelling_bounds (period : Period)
    (winst aftrek : Value) :
  let rate :=
    (parameters period).(Parameters.self_employment)
      .(Parameters.mkb_winstvrijstelling_rate) in
  has_value "winst_voor_aftrek" period winst ->
  has_value "zelfstandigenaftrek" period aftrek ->
  exists mkb : Value,
    has_value "mkb_winstvrijstelling" period mkb
    /\ forall (i : nat) (w z : Q),
         (i < persons population)%nat ->
         Arr.item winst i = Some w ->
         Arr.item aftrek i = Some z ->
         exists x : Q,
           Arr.item mkb i = Some x
           /\ x == Qmax (w - z) 0 * rate
           /\ (w <= z -> x == 0)
           /\ (0 <= rate -> 0 <= x)
           /\ (0 <= rate -> rate <= 1 -> x <= Qmax (w - z) 0).
Proof.
  intros rate Hw Hz.
  destruct (mkb_winstvrijstelling_items period _ _ Hw Hz)
    as (m & Hm & Hitems).
  exists m. split; [exact Hm|].
  intros i w z Hi Hiw Hiz. eexists. split; [by apply Hitems|].
  fold rate. split; [reflexivity|].
  split; [intros Hle; apply (exemption_of_loss w z rate Hle)|].
  split; intros; amounts.
Qed.

(** X7.  With an exemption rate between 0 and 1, the taxable
    self-employment income of a person is the profit left after the
    self-employed deduction, counted as 0 when negative, times one minus
    the exemption rate; whatever the rate, it is 0 when the profit does not
    exceed the deduction. *)
Theorem self_employment_income_after_exemption (period : Period)
    (winst aftrek : Value) :
  let rate :=
    (parameters period).(Parameters.self_employment)
      .(Parameters.mkb_winstvrijstelling_rate) in
  has_value "winst_voor_aftrek" period winst ->
  has_value "zelfstandigenaftrek" period aftrek ->
  exists se_income : Value,
    has_value "self_employment_taxable_income" period se_income
    /\ forall (i : nat) (w z : Q),
         (i < persons population)%nat ->
         Arr.item winst i = Some w ->
         Arr.item aftrek i = Some z ->
         exists x : Q,
           Arr.item se_income i = Some x
           /\ (0 <= rate -> rate <= 1 -> x == Qmax (w - z) 0 * (1 - rate))
           /\ (w <= z -> x == 0).
Proof.
  intros rate Hw Hz.
  destruct (mkb_winstvrijstelling_items period _ _ Hw Hz)
    as (m & Hm & Hmitems).
  destruct (self_employment_taxable_income_items others population parameters
              inputs period _ _ _ Hw Hz Hm) as (se & Hse & Hitems).
  exists se. split; [exact Hse|].
  intros i w z Hi Hiw Hiz. eexists.
  split; [eapply Hitems; [exact Hi|exact Hiw|exact Hiz|by apply Hmitems]|].
  fold rate. split.
  - apply exemption_complement.
  - intros Hle. apply (exemption_of_loss w z rate Hle).
Qed.

End SelfEmploymentFacts.

Section ContributionFacts.

Context (others : gmap string VariableDef).
Context (population : Population).
Context (parameters : Period -> Parameters.t).
Context (inputs : gmap Key Value).

Local Abbreviation registry := (tax_benefit_system others).
Local Abbreviation has_value :=
  (has_value registry population parameters inputs).
Local Abbreviation has_value_variable :=
  (has_value_variable others population parameters inputs).
Local Abbreviation yields_call :=
  (yields_call others population parameters inputs).
Local Abbreviation yields_try :=
  (yields_try others population parameters inputs).

(** *** social_security_contribution *)



(** X9.  On a malformed scale (first threshold not 0, or thresholds not
    strictly increasing) [social_security_contribution] has no value: once
    the salary is computed, the calculation run ends with [InvalidScale]. *)
Theorem social_security_contribution_invalid_scale (period : Period)
    (salary : Value) :
  has_value "salary" period salary ->
  TaxScale.valid
    (parameters period).(Parameters.taxes)
      .(Parameters.social_security_contribution) = false ->
  (forall v : Value, ~ has_value "social_security_contribution" period v)
  /\ exists fuel : nat, forall fuel' : nat, (fuel <= fuel')%nat ->
       calculate registry population parameters inputs fuel'
         "social_security_contribution" period
       = Err InvalidScale.
Proof.
  intros Hs Hv.
  apply (raises_calculate_error registry population parameters inputs
           "social_security_contribution" period
           taxes.social_security_contribution _ InvalidScale
           (registry_variable others "social_security_contribution"
              taxes.social_security_contribution eq_refl)
           (has_value_unit_variable others population parameters inputs
              "salary" period income.salary _ eq_refl Hs)
           eq_refl).
  simpl. unfold call.
  eapply raises_calculate; [exact Hs|].
  unfold TaxScale.calc. simpl. rewrite Hv. apply raises_raise.
Qed.

(** *** income_tax *)

(** X10.  [income_tax] computes the tax on both scales for the whole
    population before selecting by age: when either the regular or the AOW
    scale is malformed it has no value, whatever the ages, and the run ends
    with [InvalidScale] once taxable income and age are computed. *)
Theorem income_tax_invalid_scale (period : Period)
    (taxable_income age : Value) :
  has_value "taxable_income" period taxable_income ->
  has_value "age" period age ->
  TaxScale.valid
    (parameters period).(Parameters.taxes)
      .(Parameters.income_tax_brackets_aow) = false
  \/ TaxScale.valid
       (parameters period).(Parameters.taxes)
         .(Parameters.income_tax_brackets) = false ->
  (forall v : Value, ~ has_value "income_tax" period v)
  /\ exists fuel : nat, forall fuel' : nat, (fuel <= fuel')%nat ->
       calculate registry population parameters inputs fuel'
         "income_tax" period
       = Err InvalidScale.
Proof.
  intros Ht Hg Hv.
  apply (raises_calculate_error registry population parameters inputs
           "income_tax" period taxes.income_tax _ InvalidScale
           (registry_variable others "income_tax" taxes.income_tax eq_refl)
           (has_value_unit_variable others population parameters inputs
              "taxable_income" period taxes.taxable_income _ eq_refl Ht)
           eq_refl).
  simpl. unfold call.
  eapply raises_calculate; [exact Ht|].
  eapply raises_calculate; [exact Hg|].
  unfold TaxScale.calc. simpl.
  destruct (TaxScale.valid (Parameters.income_tax_brackets_aow _)) eqn:Ea;
    simpl; [|apply raises_raise].
  destruct Hv as [Hv|Hv]; [discriminate|].
  rewrite Hv. apply raises_raise.
Qed.

End ContributionFacts.

Section CompositionFacts.

Context (others : gmap string VariableDef).
Context (population : Population).
Context (parameters : Period -> Parameters.t).
Context (inputs : gmap Key Value).

Local Abbreviation registry := (tax_benefit_system others).
Local Abbreviation has_value :=
  (has_value registry population parameters inputs).
Local Abbreviation has_value_variable :=
  (has_value_variable others population parameters inputs).
Local Abbreviation yields_call :=
  (yields_call others population parameters inputs).

(** *** arbeidsinkomen over the self-employment chain *)

(** X11.  The labor income of a person is the salary plus the taxable
    self-employment income, which is clamped at 0: labor income is never
    below the salary, and equals it when the profit does not exceed the
    self-employed deduction. *)
Theorem arbeidsinkomen_at_least_salary (period : Period)
    (salary winst aftrek : Value) :
  has_value "salary" period salary ->
  has_value "winst_voor_aftrek" period winst ->
  has_value "zelfstandigenaftrek" period aftrek ->
  exists labor : Value,
    has_value "arbeidsinkomen" period labor
    /\ forall (i : nat) (s w z : Q),
         (i < persons population)%nat ->
         Arr.item salary i = Some s ->
         Arr.item winst i = Some w ->
         Arr.item aftrek i = Some z ->
         exists x : Q,
           Arr.item labor i = Some x
           /\ s <= x
           /\ (w <= z -> x == s).
Proof.
  intros Hs Hw Hz.
  destruct (mkb_winstvrijstelling_items others population parameters inputs
              period _ _ Hw Hz) as (m & Hm & Hmitems).
  destruct (self_employment_taxable_income_items others population parameters
              inputs period _ _ _ Hw Hz Hm) as (se & Hse & Hseitems).
  destruct (arbeidsinkomen_items others population parameters inputs
              period _ _ Hs Hse) as (labor & Hl & Hlitems).
  exists labor. split; [exact Hl|].
  intros i s w z Hi His Hiw Hiz. eexists.
  split.
  { apply Hlitems; [exact Hi|exact His|].
    eapply Hseitems; [exact Hi|exact Hiw|exact Hiz|by apply Hmitems]. }
  split.
  - pose proof (Q.le_max_r
                  (w - z
                   - Qmax (w - z) 0
                     * Parameters.mkb_winstvrijstelling_rate
                         (Parameters.self_employment (parameters period)))
                  0).
    lra.
  - intros Hle.
    destruct (exemption_of_loss w z
                (Parameters.mkb_winstvrijstelling_rate
                   (Parameters.self_employment (parameters period))) Hle)
      as [_ ->].
    ring.
Qed.

(** *** income_tax against the gross tax *)

(** X12.  Both tax credits are clamped at 0, so they never raise the tax:
    the income tax of a person is at most the gross tax on the scale that
    applies at the person's age, counted as 0 when negative. *)
Theorem income_tax_at_most_gross_tax (period : Period)
    (taxable_income age labor : Value) :
  let aow_age :=
    (parameters period).(Parameters.general).(Parameters.age_of_retirement) in
  let scale :=
    (parameters period).(Parameters.taxes)
                       .(Parameters.income_tax_brackets_aow) in
  let scale_regular :=
    (parameters period).(Parameters.taxes).(Parameters.income_tax_brackets) in
  has_value "taxable_income" period taxable_income ->
  has_value "age" period age ->
  has_value "arbeidsinkomen" period labor ->
  TaxScale.valid scale = true ->
  TaxScale.valid scale_regular = true ->
  exists income_tax : Value,
    has_value "income_tax" period income_tax
    /\ forall (i : nat) (t g l : Q),
         (i < persons population)%nat ->
         Arr.item taxable_income i = Some t ->
         Arr.item age i = Some g ->
         Arr.item labor i = Some l ->
         exists x : Q,
           Arr.item income_tax i = Some x
           /\ x <= Qmax (TaxScale.tax
                           (if Qle_bool aow_age g then scale
                            else scale_regular) t) 0.
Proof.
  intros aow_age scale scale_regular Ht Hg Hl Hs Hr.
  destruct (algemene_heffingskorting_items others population parameters
              inputs period _ Ht) as (a & Ha & Haitems).
  destruct (arbeidskorting_items others population parameters inputs
              period _ Hl) as (b & Hb & Hbitems).
  destruct (income_tax_items others population parameters inputs period
              _ _ _ _ Ht Hg Ha Hb Hs Hr) as (it & Hit & Hitems).
  exists it. split; [exact Hit|].
  intros i t g l Hi Hti Hgi Hli. eexists.
  split.
  { eapply Hitems; [exact Hi|exact Hti|exact Hgi|by apply Haitems
                   |by apply Hbitems]. }
  unfold Arr.Qgeb. fold aow_age scale scale_regular.
  match goal with
  | |- Qmax (?gross - ?ca - ?cb) 0 <= _ =>
      assert (0 <= ca) as Hca by apply general_credit_nonneg;
      assert (0 <= cb) as Hcb by apply labor_credit_nonneg;
      revert Hca Hcb; generalize ca, cb; intros ca' cb' Hca Hcb
  end.
  destruct (Qle_bool aow_age g); amounts.
Qed.

End CompositionFacts.

Section DefaultFacts.

Context (others : gmap string VariableDef).
Context (population : Population).
Context (parameters : Period -> Parameters.t).
Context (inputs : gmap Key Value).

Local Abbreviation registry := (tax_benefit_system others).
Local Abbreviation has_value :=
  (has_value registry population parameters inputs).

Lemma has_value_default (name : string) (var : VariableDef)
    (period : Period) :
  (list_to_map variables : gmap string VariableDef) !! name = Some var ->
  Period.unit period = definition_period var ->
  formula var = None ->
  inputs !! (name, period) = None ->
  inputs !! (name, Period.this_year period) = None ->
  has_value name period (default_array population var).
Proof.
  intros Hreg Hu Hf Hin Hyear.
  eapply has_value_input; [by apply registry_variable|exact Hu|exact Hf|].
  unfold read_input. rewrite Hu, Hin.
  destruct (definition_period var); [|reflexivity].
  by rewrite Hyear.
Qed.

(** X13.  A population for which no revenue, no expenses and no hours
    criterion were supplied, for the month or for its year, has a taxable
    self-employment income of 0 for every person, and its taxable income is
    the salary plus the capital returns plus the pension. *)
Theorem taxable_income_without_self_employment (period : Period)
    (salary capital_returns pension : Value) :
  inputs !! ("omzet", period) = None ->
  inputs !! ("omzet", Period.this_year period) = None ->
  inputs !! ("kosten", period) = None ->
  inputs !! ("kosten", Period.this_year period) = None ->
  inputs !! ("urencriterium_voldaan", Period.this_year period) = None ->
  has_value "salary" period salary ->
  has_value "capital_returns" period capital_returns ->
  has_value "pension" period pension ->
  exists se_income taxable_income : Value,
    has_value "self_employment_taxable_income" period se_income
    /\ has_value "taxable_income" period taxable_income
    /\ forall (i : nat) (s c p : Q),
         (i < persons population)%nat ->
         Arr.item salary i = Some s ->
         Arr.item capital_returns i = Some c ->
         Arr.item pension i = Some p ->
         (exists e : Q, Arr.item se_income i = Some e /\ e == 0)
         /\ exists x : Q,
              Arr.item taxable_income i = Some x /\ x == s + c + p.
Proof.
  intros Ho Hoy Hk Hky Hu Hs Hc Hp.
  pose proof (has_value_unit_variable others population parameters inputs
                "salary" period income.salary _ eq_refl Hs) as Hmonth.
  pose proof (has_value_default "omzet" income.omzet period
                eq_refl Hmonth eq_refl Ho Hoy) as Homzet.
  pose proof (has_value_default "kosten" income.kosten period
                eq_refl Hmonth eq_refl Hk Hky) as Hkosten.
  pose proof (has_value_default "urencriterium_voldaan"
                self_employment.urencriterium_voldaan
                (Period.this_year period) eq_refl eq_refl eq_refl Hu Hu)
    as Huren.
  destruct (winst_voor_aftrek_items others population parameters inputs
              period _ _ Homzet Hkosten) as (w & Hw & Hwitems).
  destruct (zelfstandigenaftrek_items others population parameters inputs
              period _ Hmonth Huren) as (z & Hz & Hzitems).
  destruct (mkb_winstvrijstelling_items others population parameters inputs
              period _ _ Hw Hz) as (m & Hm & Hmitems).
  destruct (self_employment_taxable_income_items others population parameters
              inputs period _ _ _ Hw Hz Hm) as (se & Hse & Hseitems).
  destruct (taxable_income_items others population parameters inputs period
              _ _ _ _ Hs Hc Hp Hse) as (ti & Hti & Htitems).
  exists se, ti. split; [exact Hse|]. split; [exact Hti|].
  intros i s c p Hi His Hic Hip.
  assert (forall A (x : A),
            replicate (persons population) x !! i = Some x) as Hrep
    by (intros; by apply lookup_replicate_2).
  pose proof (Hwitems i 0 0 Hi (Hrep Q 0) (Hrep Q 0)) as Hiw.
  pose proof (Hzitems i false Hi (Hrep bool false)) as Hiz.
  pose proof (Hmitems i _ _ Hi Hiw Hiz) as Him.
  pose proof (Hseitems i _ _ _ Hi Hiw Hiz Him) as Hie.
  assert (Qmax (0 - 0
                - 0 * (Parameters.zelfstandigenaftrek
                         (Parameters.self_employment (parameters period))
                       / 12)
                - Qmax (0 - 0
                        - 0 * (Parameters.zelfstandigenaftrek
                                 (Parameters.self_employment
                                    (parameters period)) / 12)) 0
                  * Parameters.mkb_winstvrijstelling_rate
                      (Parameters.self_employment (parameters period))) 0
          == 0) as Hzero.
  { apply exemption_of_loss. amounts. }
  split.
  - eexists. split; [exact Hie|exact Hzero].
  - eexists. split.
    + exact (Htitems i s c p _ Hi His Hic Hip Hie).
    + rewrite Hzero. ring.
Qed.

End DefaultFacts.

(** *** Household aggregates *)

Section SumFacts.

Local Open Scope Q_scope.

Lemma Qsum_cons (x : Q) (l : list Q) : Qsum (x :: l) = x + Qsum l.
Proof. reflexivity. Qed.

Lemma Qsum_omap_cons {A : Type} (f : A -> option Q) (x : A) (l : list A) :
  Qsum (omap f (x :: l))
  == match f x with Some y => y | None => 0 end + Qsum (omap f l).
Proof.
  change (omap f (x :: l))
    with (match f x with Some y => y :: omap f l | None => omap f l end).
  destruct (f x); [rewrite Qsum_cons|]; ring.
Qed.

Lemma Qsum_fmap_ext {A : Type} (f g : A -> Q) (l : list A) :
  (forall x, x ∈ l -> f x == g x) -> Qsum (f <$> l) == Qsum (g <$> l).
Proof.
  induction l as [|x l IH]; intros H; simpl; [reflexivity|].
  rewrite (H x) by apply list_elem_of_here.
  rewrite IH; [reflexivity|].
  intros y Hy. apply H. by apply list_elem_of_further.
Qed.

Lemma Qsum_fmap_plus {A : Type} (f g : A -> Q) (l : list A) :
  Qsum ((fun x => f x + g x) <$> l) == Qsum (f <$> l) + Qsum (g <$> l).
Proof.
  induction l as [|x l IH]; [reflexivity|].
  rewrite !fmap_cons, !Qsum_cons, IH. ring.
Qed.

Lemma Qsum_indicator_out (h0 : nat) (c : Q) (a n : nat) :
  (h0 < a \/ a + n <= h0)%nat ->
  Qsum ((fun h => if decide (h0 = h) then c else 0) <$> seq a n) == 0.
Proof.
  revert a. induction n as [|n IH]; intros a Hout; [reflexivity|].
  rewrite <- cons_seq, fmap_cons, Qsum_cons.
  rewrite decide_False by lia. rewrite IH by lia. ring.
Qed.

Lemma Qsum_indicator (h0 : nat) (c : Q) (a n : nat) :
  (a <= h0 < a + n)%nat ->
  Qsum ((fun h => if decide (h0 = h) then c else 0) <$> seq a n) == c.
Proof.
  revert a. induction n as [|n IH]; intros a Hin; [lia|].
  rewrite <- cons_seq, fmap_cons, Qsum_cons.
  destruct (decide (h0 = a)) as [->|Hne].
  - rewrite Qsum_indicator_out by lia. ring.
  - rewrite IH by lia. ring.
Qed.

(** Every person counted in exactly one household: the totals of the
    households add up to the total over the persons. *)
Lemma household_total_partition (pop : Population) (a : Array Q)
    (l : list nat) :
  (forall i, i ∈ l ->
     exists h, (h < households pop)%nat /\ household_of pop !! i = Some h) ->
  Qsum ((fun h =>
           Qsum (omap (Arr.item a)
                   (filter (fun i => household_of pop !! i = Some h) l)))
          <$> seq 0 (households pop))
  == Qsum (omap (Arr.item a) l).
Proof.
  induction l as [|i l IH]; intros Hl.
  - rewrite (Qsum_fmap_ext _ (fun h => if decide (0%nat = S h) then 0 else 0)).
    + induction (seq 0 (households pop)) as [|x xs IHx]; [reflexivity|].
      rewrite fmap_cons, Qsum_cons, IHx. simpl. ring.
    + intros h _. reflexivity.
  - destruct (Hl i (list_elem_of_here _ _)) as (hi & Hhi & Hi).
    set (c := match Arr.item a i with Some x => x | None => 0 end).
    rewrite (Qsum_fmap_ext _
               (fun h =>
                  (if decide (hi = h) then c else 0)
                  + Qsum (omap (Arr.item a)
                            (filter (fun j => household_of pop !! j = Some h)
                               l)))).
    + rewrite Qsum_fmap_plus, IH.
      * rewrite Qsum_indicator by lia. rewrite Qsum_omap_cons. reflexivity.
      * intros j Hj. apply Hl. by apply list_elem_of_further.
    + intros h _. rewrite filter_cons. rewrite Hi.
      destruct (decide (hi = h)) as [->|Hne].
      * rewrite decide_True by reflexivity. rewrite Qsum_omap_cons.
        reflexivity.
      * rewrite decide_False by congruence. ring.
Qed.

End SumFacts.

Section HouseholdFacts.

Context (others : gmap string VariableDef).
Context (population : Population).
Context (parameters : Period -> Parameters.t).
Context (inputs : gmap Key Value).

Local Abbreviation registry := (tax_benefit_system others).
Local Abbreviation has_value :=
  (has_value registry population parameters inputs).
Local Abbreviation has_value_variable :=
  (has_value_variable others population parameters inputs).
Local Abbreviation has_value_unit_variable :=
  (has_value_unit_variable others population parameters inputs).
Local Abbreviation yields_call :=
  (yields_call others population parameters inputs).

Lemma disposable_income_items (m : Period)
    (salary se_income capital_returns pension income_tax housing_tax
     social_security_contribution : Value) :
  has_value "salary" m salary ->
  has_value "self_employment_taxable_income" m se_income ->
  has_value "capital_returns" m capital_returns ->
  has_value "pension" m pension ->
  has_value "income_tax" m income_tax ->
  has_value "housing_tax" (Period.this_year m) housing_tax ->
  has_value "social_security_contribution" m social_security_contribution ->
  exists disposable_income : Value,
    has_value "disposable_income" m disposable_income
    /\ forall (h : nat) (t : Q),
         (h < households population)%nat ->
         Arr.item housing_tax h = Some t ->
         Arr.item disposable_income h
         = Some (household_total population salary h
                 + household_total population se_income h
                 + household_total population capital_returns h
                 + household_total population pension h
                 - household_total population income_tax h
                 - t / 12
                 - household_total population social_security_contribution h).
Proof.
  intros Hs Hse Hc Hp Hit Hht Hssc.
  pose proof (has_value_unit_variable "salary" m income.salary _ eq_refl Hs)
    as Hmu.
  eexists. split.
  - eapply (has_value_variable "disposable_income" m
              income.disposable_income);
      [reflexivity | exact Hmu | reflexivity |].
    simpl. unfold members, call_with.
    do 5 (eapply yields_call; [eassumption|]).
    eapply (yields_divide others population parameters inputs
              "housing_tax" m taxes.housing_tax);
      [exact Hmu | by apply registry_variable | reflexivity | exact Hht |].
    eapply yields_call; [eassumption|].
    apply yields_return.
  - intros h t Hh Ht.
    rewrite item_align_float by exact Hh.
    unfold Arr.add, Arr.sub, Arr.div. simpl.
    rewrite !item_lift2, !item_sum by exact Hh.
    rewrite Ht. reflexivity.
Qed.

Lemma total_taxes_items (m : Period)
    (income_tax social_security_contribution housing_tax : Value) :
  has_value "income_tax" m income_tax ->
  has_value "social_security_contribution" m social_security_contribution ->
  has_value "housing_tax" (Period.this_year m) housing_tax ->
  exists total_taxes : Value,
    has_value "total_taxes" m total_taxes
    /\ forall (h : nat) (t : Q),
         (h < households population)%nat ->
         Arr.item housing_tax h = Some t ->
         Arr.item total_taxes h
         = Some (household_total population income_tax h
                 + household_total population social_security_contribution h
                 + t / 12).
Proof.
  intros Hit Hssc Hht.
  pose proof (has_value_unit_variable "income_tax" m taxes.income_tax _
                eq_refl Hit) as Hmu.
  eexists. split.
  - eapply (has_value_variable "total_taxes" m stats.total_taxes);
      [reflexivity | exact Hmu | reflexivity |].
    simpl. unfold members, call.
    do 3 (eapply yields_call; [eassumption|]).
    apply yields_return.
  - intros h t Hh Ht.
    rewrite item_align_float by exact Hh.
    unfold Arr.add, Arr.div.
    rewrite !item_lift2, !item_sum by exact Hh.
    rewrite Ht. reflexivity.
Qed.

(** X14.  For every household and month, the disposable income and the
    total taxes add up to the gross income of the household: the sum over
    its members of salary, taxable self-employment income, capital returns
    and pension.  Every tax subtracted in [disposable_income] is counted in
    [total_taxes], the housing tax as the same twelfth of the yearly
    amount. *)
Theorem disposable_income_plus_total_taxes (m : Period)
    (salary se_income capital_returns pension income_tax housing_tax
     social_security_contribution : Value) :
  has_value "salary" m salary ->
  has_value "self_employment_taxable_income" m se_income ->
  has_value "capital_returns" m capital_returns ->
  has_value "pension" m pension ->
  has_value "income_tax" m income_tax ->
  has_value "housing_tax" (Period.this_year m) housing_tax ->
  has_value "social_security_contribution" m social_security_contribution ->
  exists disposable_income total_taxes : Value,
    has_value "disposable_income" m disposable_income
    /\ has_value "total_taxes" m total_taxes
    /\ forall (h : nat) (t : Q),
         (h < households population)%nat ->
         Arr.item housing_tax h = Some t ->
         exists x1 x2 : Q,
           Arr.item disposable_income h = Some x1
           /\ Arr.item total_taxes h = Some x2
           /\ x1 + x2
              == household_total population salary h
                 + household_total population se_income h
                 + household_total population capital_returns h
                 + household_total population pension h.
Proof.
  intros Hs Hse Hc Hp Hit Hht Hssc.
  destruct (disposable_income_items m _ _ _ _ _ _ _ Hs Hse Hc Hp Hit Hht Hssc)
    as (di & Hdi & Hditems).
  destruct (total_taxes_items m _ _ _ Hit Hssc Hht) as (tt & Htt & Httitems).
  exists di, tt. split; [exact Hdi|]. split; [exact Htt|].
  intros h t Hh Ht. eexists _, _.
  split; [by apply Hditems|]. split; [by apply Httitems|].
  unfold Qdiv. ring.
Qed.

(** *** household_income *)

(** X15.  The income of a household is the sum of the salaries of its
    members.  When every person belongs to a household of the population,
    no salary is lost or counted twice: the household incomes add up to
    the total of the salaries of the persons. *)
Theorem household_income_partition (m : Period) (salary : Value) :
  has_value "salary" m salary ->
  (forall i : nat, (i < persons population)%nat ->
     exists h : nat,
       (h < households population)%nat
       /\ household_of population !! i = Some h) ->
  exists household_income : Value,
    has_value "household_income" m household_income
    /\ (forall h : nat, (h < households population)%nat ->
          Arr.item household_income h
          = Some (household_total population salary h))
    /\ Qsum (household_total population salary
               <$> seq 0 (households population))
       == Qsum (omap (Arr.item salary) (seq 0 (persons population))).
Proof.
  intros Hs Hmember.
  pose proof (has_value_unit_variable "salary" m income.salary _ eq_refl Hs)
    as Hmu.
  eexists. split; [|split].
  - eapply (has_value_variable "household_income" m
              benefits.household_income);
      [reflexivity | exact Hmu | reflexivity |].
    simpl. unfold members.
    eapply yields_call; [eassumption|].
    apply yields_return.
  - intros h Hh. rewrite item_align_float by exact Hh. by apply item_sum.
  - apply (household_total_partition population salary).
    intros i Hi. apply Hmember. apply elem_of_seq in Hi. lia.
Qed.

End HouseholdFacts.

(** *** The further properties on the sample data *)

Lemma algemene_heffingskorting_bounds_sample :
  exists (credit : Value) (a : Q),
    has_value Sample.registry Sample.couple Sample.parameters Sample.inputs
      "algemene_heffingskorting" Sample.march credit
    /\ Arr.item credit 1 = Some a /\ a == 250.
Proof.
  sample_value Sample.inputs "taxable_income" Sample.march Ht.
  destruct (algemene_heffingskorting_bounds Sample.others Sample.couple
              Sample.parameters Sample.inputs Sample.march _ Ht)
    as (c & Hc & Hitems).
  destruct (Hitems 1%nat _ ltac:(simpl; lia) eq_refl)
    as (a & Ha & _ & _ & Hfull).
  exists c, a. split; [exact Hc|]. split; [exact Ha|].
  rewrite Hfull by (vm_compute; discriminate). reflexivity.
Defined.

Lemma algemene_heffingskorting_decreasing_sample :
  exists (credit : Value) (a a' : Q),
    has_value Sample.registry Sample.couple Sample.parameters Sample.inputs
      "algemene_heffingskorting" Sample.march credit
    /\ Arr.item credit 1 = Some a /\ Arr.item credit 0 = Some a'
    /\ a' <= a.
Proof.
  sample_value Sample.inputs "taxable_income" Sample.march Ht.
  destruct (algemene_heffingskorting_decreasing Sample.others Sample.couple
              Sample.parameters Sample.inputs Sample.march _
              ltac:(vm_compute; discriminate) Ht)
    as (c & Hc & Hitems).
  destruct (Hitems 1%nat 0%nat _ _ ltac:(simpl; lia) ltac:(simpl; lia)
              eq_refl eq_refl ltac:(vm_compute; discriminate))
    as (a & a' & Ha & Ha' & Hle).
  exists c, a, a'. repeat split; assumption.
Defined.

Lemma arbeidskorting_bounds_sample :
  exists (credit : Value) (a : Q),
    has_value Sample.registry Sample.couple Sample.parameters Sample.inputs
      "arbeidskorting" Sample.march credit
    /\ Arr.item credit 0 = Some a /\ 0 <= a /\ a <= 5000 / 12.
Proof.
  sample_value Sample.inputs "arbeidsinkomen" Sample.march Hl.
  destruct (arbeidskorting_bounds Sample.others Sample.couple
              Sample.parameters Sample.inputs Sample.march _ Hl)
    as (c & Hc & Hitems).
  destruct (Hitems 0%nat _ ltac:(simpl; lia) eq_refl)
    as (a & Ha & Hpos & Hmax & _).
  exists c, a. split; [exact Hc|]. split; [exact Ha|].
  split; [exact Hpos|].
  apply Hmax; vm_compute; discriminate.
Defined.

Lemma arbeidskorting_buildup_sample :
  exists (credit : Value) (a : Q),
    has_value Sample.registry Sample.couple Sample.parameters Sample.inputs
      "arbeidskorting" Sample.march credit
    /\ Arr.item credit 0 = Some a /\ a == 300.
Proof.
  sample_value Sample.inputs "arbeidsinkomen" Sample.march Hl.
  destruct (arbeidskorting_buildup Sample.others Sample.couple
              Sample.parameters Sample.inputs Sample.march _ Hl)
    as (c & Hc & Hitems).
  destruct (Hitems 0%nat _ ltac:(simpl; lia) eq_refl
              ltac:(vm_compute; discriminate)
              ltac:(vm_compute; discriminate)
              ltac:(vm_compute; discriminate))
    as (a & Ha & Heq).
  exists c, a. split; [exact Hc|]. split; [exact Ha|].
  rewrite Heq. reflexivity.
Defined.

Lemma zelfstandigenaftrek_by_hours_criterion_sample :
  exists (aftrek : Value) (x0 x1 : Q),
    has_value Sample.registry Sample.couple Sample.parameters
      Sample.freelance_inputs "zelfstandigenaftrek" Sample.march aftrek
    /\ Arr.item aftrek 0 = Some x0 /\ x0 == 3750 / 12
    /\ Arr.item aftrek 1 = Some x1 /\ x1 == 0.
Proof.
  sample_value Sample.freelance_inputs "urencriterium_voldaan"
    (Period.this_year Sample.march) Hm.
  destruct (zelfstandigenaftrek_by_hours_criterion Sample.others Sample.couple
              Sample.parameters Sample.freelance_inputs Sample.march _
              eq_refl Hm)
    as (z & Hz & Hitems).
  destruct (Hitems 0%nat _ ltac:(simpl; lia) eq_refl) as (x0 & Hx0 & He0).
  destruct (Hitems 1%nat _ ltac:(simpl; lia) eq_refl) as (x1 & Hx1 & He1).
  exists z, x0, x1. split; [exact Hz|].
  split; [exact Hx0|]. split; [exact He0|]. split; [exact Hx1|exact He1].
Defined.

Lemma mkb_winstvrijstelling_bounds_sample :
  exists (mkb : Value) (x0 x1 : Q),
    has_value Sample.registry Sample.couple Sample.parameters
      Sample.freelance_inputs "mkb_winstvrijstelling" Sample.march mkb
    /\ Arr.item mkb 0 = Some x0 /\ 0 <= x0
    /\ Arr.item mkb 1 = Some x1 /\ x1 == 0.
Proof.
  sample_value Sample.freelance_inputs "winst_voor_aftrek" Sample.march Hw.
  sample_value Sample.freelance_inputs "zelfstandigenaftrek" Sample.march Hz.
  destruct (mkb_winstvrijstelling_bounds Sample.others Sample.couple
              Sample.parameters Sample.freelance_inputs Sample.march _ _
              Hw Hz)
    as (m & Hm & Hitems).
  destruct (Hitems 0%nat _ _ ltac:(simpl; lia) eq_refl eq_refl)
    as (x0 & Hx0 & _ & _ & Hpos & _).
  destruct (Hitems 1%nat _ _ ltac:(simpl; lia) eq_refl eq_refl)
    as (x1 & Hx1 & _ & Hloss & _).
  exists m, x0, x1. split; [exact Hm|].
  split; [exact Hx0|]. split; [apply Hpos; vm_compute; discriminate|].
  split; [exact Hx1|]. apply Hloss. vm_compute. discriminate.
Defined.

Lemma self_employment_income_after_exemption_sample :
  exists (se_income : Value) (x0 x1 : Q),
    has_value Sample.registry Sample.couple Sample.parameters
      Sample.freelance_inputs "self_employment_taxable_income" Sample.march
      se_income
    /\ Arr.item se_income 0 = Some x0
    /\ x0 == (4000 - 3750 / 12) * (86 # 100)
    /\ Arr.item se_income 1 = Some x1 /\ x1 == 0.
Proof.
  sample_value Sample.freelance_inputs "winst_voor_aftrek" Sample.march Hw.
  sample_value Sample.freelance_inputs "zelfstandigenaftrek" Sample.march Hz.
  destruct (self_employment_income_after_exemption Sample.others
              Sample.couple Sample.parameters Sample.freelance_inputs
              Sample.march _ _ Hw Hz)
    as (se & Hse & Hitems).
  destruct (Hitems 0%nat _ _ ltac:(simpl; lia) eq_refl eq_refl)
    as (x0 & Hx0 & Hrate & _).
  destruct (Hitems 1%nat _ _ ltac:(simpl; lia) eq_refl eq_refl)
    as (x1 & Hx1 & _ & Hloss).
  exists se, x0, x1. split; [exact Hse|].
  split; [exact Hx0|].
  split; [rewrite Hrate by (vm_compute; discriminate); reflexivity|].
  split; [exact Hx1|]. apply Hloss. vm_compute. discriminate.
Defined.


Lemma social_security_contribution_invalid_scale_sample :
  exists fuel : nat,
    calculate Sample.registry Sample.couple Sample.broken_parameters
      Sample.inputs fuel "social_security_contribution" Sample.march
    = Err InvalidScale.
Proof.
  assert (has_value Sample.registry Sample.couple Sample.broken_parameters
            Sample.inputs "salary" Sample.march
            (VFloat (Vector [3000; 1000]))) as Hs
    by (exists 1%nat; reflexivity).
  destruct (social_security_contribution_invalid_scale Sample.others
              Sample.couple Sample.broken_parameters Sample.inputs
              Sample.march _ Hs eq_refl)
    as (_ & fuel & Hfuel).
  exists fuel. apply Hfuel. lia.
Defined.

Lemma income_tax_invalid_scale_sample :
  exists fuel : nat,
    calculate Sample.registry Sample.couple Sample.broken_parameters
      Sample.inputs fuel "income_tax" Sample.march
    = Err InvalidScale.
Proof.
  let r := eval vm_compute in
    (calculate Sample.registry Sample.couple Sample.broken_parameters
       Sample.inputs 10 "taxable_income" Sample.march) in
  match r with
  | Ok ?v =>
      assert (has_value Sample.registry Sample.couple
                Sample.broken_parameters Sample.inputs
                "taxable_income" Sample.march v) as Ht
        by (exists 10%nat; vm_compute; reflexivity)
  end.
  assert (has_value Sample.registry Sample.couple Sample.broken_parameters
            Sample.inputs "age" Sample.march (VFloat (Vector [40; 70])))
    as Hg by (exists 1%nat; reflexivity).
  destruct (income_tax_invalid_scale Sample.others Sample.couple
              Sample.broken_parameters Sample.inputs Sample.march _ _
              Ht Hg (or_introl eq_refl))
    as (_ & fuel & Hfuel).
  exists fuel. apply Hfuel. lia.
Defined.

Lemma arbeidsinkomen_at_least_salary_sample :
  exists (labor : Value) (x : Q),
    has_value Sample.registry Sample.couple Sample.parameters
      Sample.freelance_inputs "arbeidsinkomen" Sample.march labor
    /\ Arr.item labor 1 = Some x /\ x == 1000.
Proof.
  sample_value Sample.freelance_inputs "salary" Sample.march Hs.
  sample_value Sample.freelance_inputs "winst_voor_aftrek" Sample.march Hw.
  sample_value Sample.freelance_inputs "zelfstandigenaftrek" Sample.march Hz.
  destruct (arbeidsinkomen_at_least_salary Sample.others Sample.couple
              Sample.parameters Sample.freelance_inputs Sample.march _ _ _
              Hs Hw Hz)
    as (l & Hl & Hitems).
  destruct (Hitems 1%nat _ _ _ ltac:(simpl; lia) eq_refl eq_refl eq_refl)
    as (x & Hx & _ & Hloss).
  exists l, x. split; [exact Hl|]. split; [exact Hx|].
  rewrite Hloss by (vm_compute; discriminate). reflexivity.
Defined.

Lemma income_tax_at_most_gross_tax_sample :
  exists (income_tax : Value) (x : Q),
    has_value Sample.registry Sample.couple Sample.parameters Sample.inputs
      "income_tax" Sample.march income_tax
    /\ Arr.item income_tax 0 = Some x /\ x <= 500.
Proof.
  sample_value Sample.inputs "taxable_income" Sample.march Ht.
  sample_value Sample.inputs "age" Sample.march Hg.
  sample_value Sample.inputs "arbeidsinkomen" Sample.march Hl.
  destruct (income_tax_at_most_gross_tax Sample.others Sample.couple
              Sample.parameters Sample.inputs Sample.march _ _ _
              Ht Hg Hl eq_refl eq_refl)
    as (it & Hit & Hitems).
  destruct (Hitems 0%nat _ _ _ ltac:(simpl; lia) eq_refl eq_refl eq_refl)
    as (x & Hx & Hle).
  exists it, x. split; [exact Hit|]. split; [exact Hx|].
  eapply Qle_trans; [exact Hle|]. vm_compute. discriminate.
Defined.

Lemma taxable_income_without_self_employment_sample :
  exists (taxable_income : Value) (x : Q),
    has_value Sample.registry Sample.couple Sample.parameters Sample.inputs
      "taxable_income" Sample.march taxable_income
    /\ Arr.item taxable_income 1 = Some x /\ x == 900.
Proof.
  sample_value Sample.inputs "salary" Sample.march Hs.
  sample_value Sample.inputs "capital_returns" Sample.march Hc.
  sample_value Sample.inputs "pension" Sample.march Hp.
  destruct (taxable_income_without_self_employment Sample.others
              Sample.couple Sample.parameters Sample.inputs Sample.march
              _ _ _ eq_refl eq_refl eq_refl eq_refl eq_refl Hs Hc Hp)
    as (se & ti & _ & Hti & Hitems).
  destruct (Hitems 1%nat _ _ _ ltac:(simpl; lia) eq_refl eq_refl eq_refl)
    as (_ & x & Hx & Heq).
  exists ti, x. split; [exact Hti|]. split; [exact Hx|].
  rewrite Heq. reflexivity.
Defined.

Lemma disposable_income_plus_total_taxes_sample :
  exists (disposable_income total_taxes : Value) (x1 x2 : Q),
    has_value Sample.registry Sample.couple Sample.parameters
      Sample.housing_inputs "disposable_income" Sample.march disposable_income
    /\ has_value Sample.registry Sample.couple Sample.parameters
         Sample.housing_inputs "total_taxes" Sample.march total_taxes
    /\ Arr.item disposable_income 0 = Some x1
    /\ Arr.item total_taxes 0 = Some x2
    /\ x1 + x2 == 3900.
Proof.
  sample_value Sample.housing_inputs "salary" Sample.march Hs.
  sample_value Sample.housing_inputs "self_employment_taxable_income"
    Sample.march Hse.
  sample_value Sample.housing_inputs "capital_returns" Sample.march Hc.
  sample_value Sample.housing_inputs "pension" Sample.march Hp.
  sample_value Sample.housing_inputs "income_tax" Sample.march Hit.
  sample_value Sample.housing_inputs "housing_tax"
    (Period.this_year Sample.march) Hht.
  sample_value Sample.housing_inputs "social_security_contribution"
    Sample.march Hssc.
  destruct (disposable_income_plus_total_taxes Sample.others Sample.couple
              Sample.parameters Sample.housing_inputs Sample.march
              _ _ _ _ _ _ _ Hs Hse Hc Hp Hit Hht Hssc)
    as (di & tt & Hdi & Htt & Hitems).
  destruct (Hitems 0%nat _ ltac:(simpl; lia) eq_refl)
    as (x1 & x2 & Hx1 & Hx2 & Heq).
  exists di, tt, x1, x2. split; [exact Hdi|]. split; [exact Htt|].
  split; [exact Hx1|]. split; [exact Hx2|]. rewrite Heq. reflexivity.
Defined.

Lemma household_income_partition_sample :
  exists household_income : Value,
    has_value Sample.registry Sample.couple Sample.parameters Sample.inputs
      "household_income" Sample.march household_income
    /\ Arr.item household_income 0 = Some 4000.
Proof.
  sample_value Sample.inputs "salary" Sample.march Hs.
  destruct (household_income_partition Sample.others Sample.couple
              Sample.parameters Sample.inputs Sample.march _ Hs)
    as (hi & Hhi & Hitems & _).
  { intros i Hi. exists 0%nat. split; [simpl; lia|].
    destruct i as [|[|i]]; [reflexivity|reflexivity|simpl in Hi; lia]. }
  exists hi. split; [exact Hhi|].
  rewrite (Hitems 0%nat ltac:(simpl; lia)). reflexivity.
Defined.
